(** * Bug classifier app: the per-upload pipeline of [app.py]

    The script reads an uploaded table with pandas, keeps the rows that have a
    [Details] text, derives a [Bug ID], asks a pickled scikit-learn model for
    a category and a confidence per row, and hands two aggregates and a result
    table to Streamlit.

    Embedding.
    - A pandas [DataFrame] is a row count together with its columns in
      positional order, each a label and a list of cells.  Labels may repeat,
      as they may in pandas.  The row index is not represented: the script
      never looks a row up by label, and its only index-aligned assignment
      copies a column of a frame into that same frame.
    - Python [str] is a byte string (UTF-8).  A float64 value is the rational
      it denotes, and float64 arithmetic rounds the exact result to the
      nearest float64, ties to even ([Float64.nearest]); line 62 is numpy's
      [round] on a float64.
    - The script's effects are the Streamlit calls it makes and the exception
      it may raise: a computation returns the calls made so far together with
      a value or an exception.  Streamlit and matplotlib calls themselves are
      taken to return normally.  Two of them are known to refuse their
      argument: [ax.pie] an aggregate without an entry, and [st.dataframe] a
      table with a repeated label.  [drawable] and [displayable] name the
      arguments they take, [pie_has_entry] and [result_labels_unique] the
      tables that lead to such arguments; on another table the script ends
      in its handler at the call that refuses, where [process] goes on.
    - The uploaded file is seen through pandas' readers, and the pickled
      vectorizer and model through their methods; both are data of the
      environment.  Column headers are text; the frame without any column is
      the empty frame, whose column index holds no text.
    - Left out: the page set-up of lines 15-18, the order in which
      [value_counts] lists its entries, and the styling of the pie chart. *)

From Stdlib Require Import Ascii String QArith Qround Qminmax Qabs ZArith Lia Lqa.
From stdpp Require Import base option list strings gmap pretty.

Open Scope string_scope.
Open Scope list_scope.

(** ** Python strings *)

Module Py.

(** [c.lower()] on one byte: code points outside ASCII never lower to an ASCII
    letter of ["yes"], so for the script's comparison bytes above 127 can stay
    as they are. *)
Definition lower_ascii (c : ascii) : ascii :=
  let n := nat_of_ascii c in
  if ((65 <=? n) && (n <=? 90))%nat then ascii_of_nat (n + 32) else c.

Fixpoint lower (s : string) : string :=
  match s with
  | EmptyString => EmptyString
  | String c s' => String (lower_ascii c) (lower s')
  end.

(** [s.endswith(suf)] *)
Definition endswith (s suf : string) : bool :=
  let n := String.length s in
  let m := String.length suf in
  if (m <=? n)%nat then String.eqb (substring (n - m) m s) suf else false.

Definition bytes (l : list nat) : list ascii := map ascii_of_nat l.

(** The code points for which [str.isspace] holds, in UTF-8. *)
Definition whitespace : list (list ascii) :=
  map bytes
    [ [9]; [10]; [11]; [12]; [13]; [28]; [29]; [30]; [31]; [32];
      [194; 133]; [194; 160]; [225; 154; 128];
      [226; 128; 128]; [226; 128; 129]; [226; 128; 130]; [226; 128; 131];
      [226; 128; 132]; [226; 128; 133]; [226; 128; 134]; [226; 128; 135];
      [226; 128; 136]; [226; 128; 137]; [226; 128; 138];
      [226; 128; 168]; [226; 128; 169]; [226; 128; 175];
      [226; 129; 159]; [227; 128; 128] ]%nat.

Fixpoint strip_prefix (p l : list ascii) : option (list ascii) :=
  match p, l with
  | [], _ => Some l
  | a :: p', b :: l' => if Ascii.eqb a b then strip_prefix p' l' else None
  | _ :: _, [] => None
  end.

Fixpoint drop_one (pats : list (list ascii)) (l : list ascii) : option (list ascii) :=
  match pats with
  | [] => None
  | p :: pats' =>
      match strip_prefix p l with
      | Some l' => Some l'
      | None => drop_one pats' l
      end
  end.

(** Drop leading members of [pats]; [fuel] bounds the number of members
    dropped, and the length of the input always suffices. *)
Fixpoint drop_leading (fuel : nat) (pats : list (list ascii)) (l : list ascii) : list ascii :=
  match fuel with
  | O => l
  | S fuel' =>
      match drop_one pats l with
      | Some l' => drop_leading fuel' pats l'
      | None => l
      end
  end.

Definition lstrip_bytes (pats : list (list ascii)) (l : list ascii) : list ascii :=
  drop_leading (length l) pats l.

(** [s.strip()] *)
Definition strip (s : string) : string :=
  let l := lstrip_bytes whitespace (list_ascii_of_string s) in
  let r := lstrip_bytes (map (@rev ascii) whitespace) (rev l) in
  string_of_list_ascii (rev r).

End Py.

(** ** Cells, exceptions, frames *)

(** A cell of a table.  [CNull] stands for pandas' missing value. *)
Inductive cell : Type :=
| CNull
| CStr (s : string)
| CInt (z : Z)
| CFloat (q : Q)
| CBool (b : bool).

(** An exception with what [str(e)] prints; for a [KeyError] that is the
    repr of its key. *)
Inductive Exn : Type :=
| KeyError (key_repr : string)
| ValueError (msg : string)
| AttributeError (msg : string)
| OtherError (msg : string).

(** [str(e)] *)
Definition exn_str (e : Exn) : string :=
  match e with
  | KeyError msg | ValueError msg | AttributeError msg | OtherError msg => msg
  end.

Record DataFrame : Type := mkDataFrame {
  len : nat;                            (* len(df) *)
  cols : list (string * list cell)      (* label and values, by position *)
}.

(** Every column has one value per row. *)
Definition well_formed (df : DataFrame) : Prop :=
  Forall (fun c => length (snd c) = len df) (cols df).

Definition columns (df : DataFrame) : list string := map fst (cols df).

(** How often a label occurs among the columns. *)
Definition label_count (k : string) (df : DataFrame) : nat :=
  length (List.filter (fun c => String.eqb (fst c) k) (cols df)).

(** ** Streamlit calls and the script's effects *)

(** The result of [value_counts()] on a column: a count per value. *)
Inductive Counts : Type :=
| SeriesCounts (c : list (cell * nat)).

(** The Streamlit calls of the script.  [st_pyplot_pie] stands for the figure
    of lines 74-90, drawn from [bug_counts] and handed to [st.pyplot]. *)
Inductive widget : Type :=
| st_write (msg : string) (cols : list string)
| st_error (msg : string)
| st_markdown (s : string)
| st_subheader (s : string)
| st_pyplot_pie (counts : Counts)
| st_bar_chart (counts : Counts)
| st_dataframe (t : DataFrame).

(** Calls made so far, and a value or the exception raised. *)
Definition M (A : Type) : Type := (list widget * (Exn + A))%type.

Definition emit (w : widget) : M unit := ([w], inr tt).
Definition lift {A} (r : Exn + A) : M A := ([], r).

#[export] Instance M_ret : MRet M := fun A a => ([], inr a).
#[export] Instance M_bind : MBind M := fun A B f m =>
  match m with
  | (out, inl e) => (out, inl e)
  | (out, inr a) => let '(out', r) := f a in (out ++ out', r)
  end.

(** Exceptions alone, for the calls that make no Streamlit call. *)
#[export] Instance result_ret : MRet (sum Exn) := fun A a => inr a.
#[export] Instance result_bind : MBind (sum Exn) := fun A B f r =>
  match r with
  | inl e => inl e
  | inr a => f a
  end.

(** ** pandas *)

Module Pd.

Definition isnull (v : cell) : bool :=
  match v with CNull => true | _ => false end.

Definition notnull (v : cell) : bool := negb (isnull v).

(** Python's [==] on cell values: numbers compare by value across [bool],
    [int] and [float]; missing values fall in one group. *)
Definition as_number (v : cell) : option Q :=
  match v with
  | CInt z => Some (inject_Z z)
  | CFloat q => Some q
  | CBool b => Some (if b then 1%Q else 0%Q)
  | _ => None
  end.

Definition cell_eqb (x y : cell) : bool :=
  match x, y with
  | CNull, CNull => true
  | CStr s, CStr t => String.eqb s t
  | _, _ =>
      match as_number x, as_number y with
      | Some p, Some q => Qeq_bool p q
      | _, _ => false
      end
  end.

(** [k in df.columns] *)
Definition in_columns (k : string) (df : DataFrame) : bool :=
  existsb (String.eqb k) (columns df).

(** The columns labelled [k], by position. *)
Definition lookup_all (k : string) (df : DataFrame) : list (list cell) :=
  map snd (List.filter (fun c => String.eqb (fst c) k) (cols df)).

(** What [df[k]] evaluates to: a column when the label occurs once, a
    sub-frame when it is repeated. *)
Inductive Selection : Type :=
| Series (values : list cell)
| SubFrame (k : string) (cs : list (list cell)).

Definition quoted (k : string) : string := "'" +:+ k +:+ "'".

(** [df[k]] *)
Definition getitem (k : string) (df : DataFrame) : Exn + Selection :=
  match lookup_all k df with
  | [] => inl (KeyError (quoted k))
  | [c] => inr (Series c)
  | cs => inr (SubFrame k cs)
  end.

(** Store [vals] under [k]: every column labelled [k] is overwritten, and a
    new label is appended as the last column. *)
Definition assign (k : string) (vals : list cell) (df : DataFrame) : DataFrame :=
  if in_columns k df
  then mkDataFrame (len df)
         (map (fun c => if String.eqb (fst c) k then (k, vals) else c) (cols df))
  else mkDataFrame (len df) (cols df ++ [(k, vals)]).

(** [df[k] = vals] for a list, range or array: its length must be [len(df)]. *)
Definition setitem (k : string) (vals : list cell) (df : DataFrame) : Exn + DataFrame :=
  if (length vals =? len df)%nat then inr (assign k vals df)
  else inl (ValueError ("Length of values (" +:+ pretty (length vals)
                        +:+ ") does not match length of index ("
                        +:+ pretty (len df) +:+ ")")).

(** [df[k] = scalar] *)
Definition setitem_scalar (k : string) (v : cell) (df : DataFrame) : DataFrame :=
  assign k (repeat v (len df)) df.

(** Overwrite the columns labelled [k], in order, by the columns [cs]. *)
Fixpoint assign_each (k : string) (cs : list (list cell))
    (l : list (string * list cell)) : list (string * list cell) :=
  match l with
  | [] => []
  | c :: l' =>
      if String.eqb (fst c) k then
        match cs with
        | v :: cs' => (k, v) :: assign_each k cs' l'
        | [] => c :: l'
        end
      else c :: assign_each k cs l'
  end.

(** [df[k] = sel] where [sel] was taken from [df] itself, so that the rows
    align: a column is stored as by [assign]; a sub-frame needs as many
    columns labelled [k] as it has itself. *)
Definition setitem_sel (k : string) (sel : Selection) (df : DataFrame) : Exn + DataFrame :=
  match sel with
  | Series vals => inr (assign k vals df)
  | SubFrame _ cs =>
      if in_columns k df then
        if (length (lookup_all k df) =? length cs)%nat
        then inr (mkDataFrame (len df) (assign_each k cs (cols df)))
        else inl (ValueError "Columns must be same length as key")
      else inl (ValueError ("Cannot set a DataFrame with multiple columns to the single column " +:+ k))
  end.

(** Keep the positions at which the mask holds. *)
Fixpoint select_rows {A} (mask : list bool) (l : list A) : list A :=
  match mask, l with
  | b :: mask', x :: l' =>
      if b then x :: select_rows mask' l' else select_rows mask' l'
  | _, _ => []
  end.

(** [df[mask]] *)
Definition df_mask (mask : list bool) (df : DataFrame) : DataFrame :=
  mkDataFrame (length (List.filter id mask))
    (map (fun c => (fst c, select_rows mask (snd c))) (cols df)).

(** Row [i] of the columns [cs]. *)
Definition row_at (cs : list (list cell)) (i : nat) : list cell :=
  map (fun c => nth i c CNull) cs.

Definition rows_of (n : nat) (cs : list (list cell)) : list (list cell) :=
  map (row_at cs) (seq 0 n).

(** [df.dropna(subset=[k])]: a row goes when any column labelled [k] is
    missing there. *)
Definition dropna (k : string) (df : DataFrame) : Exn + DataFrame :=
  match lookup_all k df with
  | [] => inl (KeyError ("[" +:+ quoted k +:+ "]"))
  | cs => inr (df_mask (map (forallb notnull) (rows_of (len df) cs)) df)
  end.

(** [df.rename(columns={a: b}, inplace=True)] *)
Definition rename (a b : string) (df : DataFrame) : DataFrame :=
  mkDataFrame (len df)
    (map (fun c => if String.eqb (fst c) a then (b, snd c) else c) (cols df)).

Definition dquote : string := String (ascii_of_nat 34) EmptyString.

(** [df[keys]]: for each key in turn, every column that bears it. *)
Fixpoint select_columns (keys : list string) (df : DataFrame)
    : Exn + list (string * list cell) :=
  match keys with
  | [] => inr []
  | k :: keys' =>
      match List.filter (fun c => String.eqb (fst c) k) (cols df) with
      | [] => inl (KeyError (dquote +:+ "[" +:+ quoted k +:+ "] not in index" +:+ dquote))
      | cs => rest ← select_columns keys' df; mret (cs ++ rest)
      end
  end.

Definition select (keys : list string) (df : DataFrame) : Exn + DataFrame :=
  cs ← select_columns keys df; mret (mkDataFrame (len df) cs).

(** [value_counts()] on a column: one entry per distinct non-missing key with
    the number of its occurrences, here in order of first occurrence (the
    order in which pandas lists the entries is presentation and is not
    modelled).  On a sub-frame the rows are grouped by its labels, and the
    grouper refuses a label that is repeated. *)
Fixpoint bump {K} (eqb : K -> K -> bool) (v : K) (acc : list (K * nat)) : list (K * nat) :=
  match acc with
  | [] => [(v, 1%nat)]
  | (k, n) :: acc' =>
      if eqb k v then (k, S n) :: acc' else (k, n) :: bump eqb v acc'
  end.

Definition count_values {K} (eqb : K -> K -> bool) (missing : K -> bool)
    (l : list K) : list (K * nat) :=
  fold_left (fun acc v => if missing v then acc else bump eqb v acc) l [].

Definition value_counts (sel : Selection) : Exn + Counts :=
  match sel with
  | Series vals => inr (SeriesCounts (count_values cell_eqb isnull vals))
  | SubFrame k _ => inl (ValueError ("Grouper for " +:+ quoted k +:+ " not 1-dimensional"))
  end.

End Pd.

(** ** The classifier artifacts *)

(** [model.predict] answers with class codes (a numeric array) or with labels
    (an array of strings). *)
Inductive Predictions : Type :=
| Codes (p : list Z)
| Labels (p : list string).

Definition pred_length (p : Predictions) : nat :=
  match p with Codes l => length l | Labels l => length l end.

(** The unpickled vectorizer and model, through the three methods the script
    calls; [features] is whatever the vectorizer hands to the model. *)
Record Classifier : Type := mkClassifier {
  features : Type;
  transform : list string -> Exn + features;
  predict : features -> Exn + Predictions;
  predict_proba : features -> Exn + list (list Q)
}.

(** The uploaded file: its name and what pandas' readers make of it
    ([read_excel] with the openpyxl engine, by the number of rows skipped). *)
Record UploadedFile : Type := mkUploadedFile {
  name : string;
  read_csv : Exn + DataFrame;
  read_excel : nat -> Exn + DataFrame
}.

(** ** The script *)

(** [round(x)] to the nearest integer, ties to even. *)
Definition round_half_even (x : Q) : Z :=
  let f := Qfloor x in
  match (x - inject_Z f ?= 1 # 2)%Q with
  | Lt => f
  | Gt => (f + 1)%Z
  | Eq => if Z.even f then f else (f + 1)%Z
  end.

(** ** float64 arithmetic

    The finite float64 values are the rationals [m * 2^q] with [|m| < 2^53]
    and [-1074 <= q <= 971].  Every operation of the script stays far below
    the largest of them, so overflow is not represented. *)

Module Float64.

(** [2^k] for any integer [k]. *)
Definition pow2 (k : Z) : Q :=
  if (0 <=? k)%Z then inject_Z (2 ^ k) else Qmake 1 (Z.to_pos (2 ^ (- k))).

(** The binary exponent of [x]: [2^e <= |x| < 2^(e+1)] for [x] other than 0. *)
Definition exponent (x : Q) : Z :=
  let a := (Z.log2 (Z.abs (Qnum x)) - Z.log2 (Zpos (Qden x)))%Z in
  if Qle_bool (pow2 a) (Qabs x) then a else (a - 1)%Z.

(** The exponent of the last place of the float64 values around [x]: 52 below
    the exponent of [x], and -1074 in the subnormal range. *)
Definition ulp_exponent (x : Q) : Z := Z.max (exponent x - 52) (-1074).

(** The float64 nearest to [x], ties to the even significand. *)
Definition nearest (x : Q) : Q :=
  let q := ulp_exponent x in
  Qred (inject_Z (round_half_even (x / pow2 q)) * pow2 q).

End Float64.

(** [round(p, 2)] on a numpy float64: the product with 100 and the quotient
    by 100 are float64 operations, [rint] is exact. *)
Definition round2 (p : Q) : Q :=
  Float64.nearest (inject_Z (round_half_even (Float64.nearest (p * 100))) / 100).

(** [row.max()]; numpy refuses an empty row. *)
Definition row_max (r : list Q) : Exn + Q :=
  match r with
  | [] => inl (ValueError "zero-size array to reduction operation maximum which has no identity")
  | q :: r' => inr (fold_left Qmax r' q)
  end.

(** [matrix.max(axis=1)] *)
Fixpoint max_axis1 (pm : list (list Q)) : Exn + list Q :=
  match pm with
  | [] => inr []
  | r :: pm' => q ← row_max r; qs ← max_axis1 pm'; mret (q :: qs)
  end.

Definition category_map : gmap Z string :=
  <[0%Z := "UI"]> (<[1%Z := "API"]> (<[2%Z := "DB"]> (<[3%Z := "Server"]> (<[4%Z := "Other"]> ∅)))).

(** [category_map.get(int(p), str(p))] *)
Definition category_label (p : Z) : string :=
  default (pretty p) (category_map !! p).

Definition table_cols : list string :=
  ["Bug ID"; "Details"; "Predicted Category"; "Logic-level Issue"; "Confidence Score"].

Definition missing_details_message : string :=
  "❌ The uploaded file must contain a 'Details' column.".

(** What the top-level handler prints for [e]. *)
Definition handler_message (e : Exn) : string := "❌ Error: " +:+ exn_str e.

Section Script.

(** [repr] of a float, and the cached [load_model()]. *)
Context (float_repr : Q -> string).
Context (load_model : Exn + Classifier).

(** [str(v)]; a missing value prints as [nan]. *)
Definition py_str (v : cell) : string :=
  match v with
  | CNull => "nan"
  | CStr s => s
  | CInt z => pretty z
  | CFloat q => float_repr q
  | CBool true => "True"
  | CBool false => "False"
  end.

(** [sel.astype(str)] *)
Definition astype_str (sel : Pd.Selection) : Pd.Selection :=
  match sel with
  | Pd.Series vals => Pd.Series (map (fun v => CStr (py_str v)) vals)
  | Pd.SubFrame k cs => Pd.SubFrame k (map (map (fun v => CStr (py_str v))) cs)
  end.

(** [sel.astype(str).str.lower() == s]; a sub-frame has no [.str]. *)
Definition str_lower_eq (sel : Pd.Selection) (s : string) : Exn + list bool :=
  match astype_str sel with
  | Pd.Series vals => inr (map (fun v => String.eqb (Py.lower (py_str v)) s) vals)
  | Pd.SubFrame _ _ => inl (AttributeError "'DataFrame' object has no attribute 'str'")
  end.

(** The documents the vectorizer iterates over: the texts of a column, the
    labels of a sub-frame. *)
Definition documents (sel : Pd.Selection) : list string :=
  match sel with
  | Pd.Series vals => map py_str vals
  | Pd.SubFrame k cs => map (fun _ => k) cs
  end.

(** Lines 40-41. *)
Definition drop_null_details (df : DataFrame) : Exn + DataFrame :=
  df ← Pd.dropna "Details" df;
  d ← Pd.getitem "Details" df;
  Pd.setitem_sel "Details" (astype_str d) df.

(** [range(1, len(df) + 1)] *)
Definition bug_id_range (df : DataFrame) : list cell :=
  map (fun i => CInt (Z.of_nat i)) (seq 1 (len df)).

(** Lines 44-47. *)
Definition derive_bug_id (df : DataFrame) : Exn + DataFrame :=
  if Pd.in_columns "S.No" df then inr (Pd.rename "S.No" "Bug ID" df)
  else if negb (Pd.in_columns "Bug ID" df) then Pd.setitem "Bug ID" (bug_id_range df) df
  else inr df.

(** Lines 50-53. *)
Definition classify (docs : list string) : Exn + (Predictions * list Q) :=
  clf ← load_model;
  X ← transform clf docs;
  preds ← predict clf X;
  pm ← predict_proba clf X;
  probs ← max_axis1 pm;
  mret (preds, probs).

(** Lines 56-60. *)
Definition predicted_category (preds : Predictions) : list cell :=
  match preds with
  | Codes ps => map (fun p => CStr (category_label p)) ps
  | Labels ls => map CStr ls
  end.

(** Line 62. *)
Definition confidence_score (probs : list Q) : list cell :=
  map (fun p => CFloat (round2 p)) probs.

(** Lines 50-62. *)
Definition add_predictions (df : DataFrame) : Exn + DataFrame :=
  d ← Pd.getitem "Details" df;
  '(preds, probs) ← classify (documents d);
  df ← Pd.setitem "Predicted Category" (predicted_category preds) df;
  Pd.setitem "Confidence Score" (confidence_score probs) df.

(** Lines 65-68. *)
Definition add_logic_level (df : DataFrame) : Exn + DataFrame :=
  if Pd.in_columns "Logical_Issue" df then
    li ← Pd.getitem "Logical_Issue" df;
    Pd.setitem_sel "Logic-level Issue" li df
  else inr (Pd.setitem_scalar "Logic-level Issue" (CStr "N/A") df).

(** Lines 40-68: the frame the charts and the table are taken from. *)
Definition compose (df : DataFrame) : Exn + DataFrame :=
  df ← drop_null_details df;
  df ← derive_bug_id df;
  df ← add_predictions df;
  add_logic_level df.

(** Lines 71-90. *)
Definition pie_chart (df : DataFrame) : M unit :=
  emit (st_markdown "### 🥧 Pie Chart – Bug Origin by Type");;
  bt ← lift (Pd.getitem "bug_type" df);
  bug_counts ← lift (Pd.value_counts bt);
  emit (st_pyplot_pie bug_counts).

(** Lines 93-96. *)
Definition bar_chart (df : DataFrame) : M unit :=
  emit (st_markdown "### 📊 Bar Chart – Logic-Level Bugs by Category");;
  li ← lift (Pd.getitem "Logical_Issue" df);
  mask ← lift (str_lower_eq li "yes");
  let logic_bugs := Pd.df_mask mask df in
  bt ← lift (Pd.getitem "bug_type" logic_bugs);
  logic_counts ← lift (Pd.value_counts bt);
  emit (st_bar_chart logic_counts).

(** Lines 99-101; [reset_index(drop=True)] renumbers the rows and changes
    nothing here. *)
Definition result_table (df : DataFrame) : M unit :=
  emit (st_subheader "📑 Table – Bug Classification Results");;
  t ← lift (Pd.select table_cols df);
  emit (st_dataframe t).

(** Lines 35-101, on the table that was loaded. *)
Definition process (df : DataFrame) : M unit :=
  emit (st_write "📋 Columns found in your file:" (columns df));;
  if negb (Pd.in_columns "Details" df) then
    emit (st_error missing_details_message)
  else
    df ← lift (compose df);
    pie_chart df;;
    bar_chart df;;
    result_table df.

(** The frame with every label stripped. *)
Definition strip_labels (df : DataFrame) : DataFrame :=
  mkDataFrame (len df) (map (fun c => (Py.strip (fst c), snd c)) (cols df)).

(** [df.columns = df.columns.str.strip()]; the column index of the empty
    frame holds no text and has no [.str] (the text of the error is that of
    pandas 3). *)
Definition strip_columns (df : DataFrame) : Exn + DataFrame :=
  match cols df with
  | [] => inl (AttributeError "Can only use .str accessor with string values, not integer")
  | _ :: _ => inr (strip_labels df)
  end.

(** Lines 23-33. *)
Definition load (f : UploadedFile) : Exn + DataFrame :=
  df ← (if Py.endswith (name f) ".csv" then read_csv f else read_excel f 0);
  df ← strip_columns df;
  if negb (Pd.in_columns "Details" df) then
    df ← read_excel f 2;
    strip_columns df
  else mret df.

(** The body of the [try]. *)
Definition body (f : UploadedFile) : M unit :=
  df ← lift (load f);
  process df.

(** Lines 20-104: one run of the script on an upload, as the Streamlit calls
    it makes; without an upload it makes none. *)
Definition app (uploaded_file : option UploadedFile) : list widget :=
  match uploaded_file with
  | None => []
  | Some f =>
      match body f with
      | (out, inl e) => out ++ [st_error (handler_message e)]
      | (out, inr _) => out
      end
  end.

End Script.

(** ** Reading the specification's words *)

(** A bug report as the specification sees a row: its text, its pre-existing
    type and its logic flag. *)
Record BugRow : Type := mkBugRow {
  r_details : cell;
  r_bug_type : cell;
  r_logical_issue : cell
}.

(** The rows left by the null-details filter. *)
Definition surviving (rows : list BugRow) : list BugRow :=
  List.filter (fun r => Pd.notnull (r_details r)) rows.

(** The spellings of "yes". *)
Definition yes_spellings : list string :=
  ["yes"; "yeS"; "yEs"; "yES"; "Yes"; "YeS"; "YEs"; "YES"].

(** The flag textually equals ["yes"], whatever the capitals: its text is one
    of the eight spellings. *)
Definition says_yes (float_repr : Q -> string) (v : cell) : bool :=
  existsb (String.eqb (py_str float_repr v)) yes_spellings.

(** Rows per bug type: the number of rows whose type is [v]. *)
Definition rows_of_type (v : cell) (rows : list BugRow) : nat :=
  length (List.filter (fun r => Pd.cell_eqb (r_bug_type r) v) rows).

(** The count an aggregate gives for [v] (none is 0). *)
Definition count_of (v : cell) (c : list (cell * nat)) : nat :=
  match List.find (fun kn => Pd.cell_eqb (fst kn) v) c with
  | Some kn => snd kn
  | None => 0%nat
  end.

(** An aggregate lists every key once, with a positive count. *)
Fixpoint distinct_keys (c : list (cell * nat)) : bool :=
  match c with
  | [] => true
  | (k, n) :: c' =>
      negb (Pd.isnull k) && (0 <? n)%nat
      && forallb (fun kn => negb (Pd.cell_eqb (fst kn) k)) c' && distinct_keys c'
  end.

(** The largest entry of a row of class probabilities. *)
Definition max_probability (r : list Q) : Q :=
  fold_left Qmax (tl r) (hd 0%Q r).

Definition is_table (w : widget) : bool :=
  match w with st_dataframe _ => true | _ => false end.

Definition is_chart (w : widget) : bool :=
  match w with st_pyplot_pie _ | st_bar_chart _ => true | _ => false end.

Definition is_error (w : widget) : bool :=
  match w with st_error _ => true | _ => false end.

(** The frame handed to [st.dataframe], if any. *)
Definition shown_table (out : list widget) : option DataFrame :=
  match List.filter is_table out with
  | st_dataframe t :: _ => Some t
  | _ => None
  end.

(** ** The frames of a run that goes through *)

(** The frame after lines 40-41, for a table whose [Details] column is [d]. *)
Definition details_kept (float_repr : Q -> string) (df : DataFrame) (d : list cell) : DataFrame :=
  Pd.assign "Details" (map (fun v => CStr (py_str float_repr v)) (List.filter Pd.notnull d))
    (Pd.df_mask (map Pd.notnull d) df).

(** What [df["Logic-level Issue"]] is set to. *)
Definition logic_level_values (df : DataFrame) (d : list cell) : list cell :=
  match Pd.lookup_all "Logical_Issue" df with
  | [li] => Pd.select_rows (map Pd.notnull d) li
  | _ => repeat (CStr "N/A") (length (List.filter Pd.notnull d))
  end.

(** The frame after line 68, from the frame [ids] after line 47. *)
Definition composed (df : DataFrame) (d : list cell) (preds : Predictions)
    (probs : list Q) (ids : DataFrame) : DataFrame :=
  Pd.assign "Logic-level Issue" (logic_level_values df d)
    (Pd.assign "Confidence Score" (confidence_score probs)
       (Pd.assign "Predicted Category" (predicted_category preds) ids)).

(** The test of line 94 on one cell. *)
Definition flagged (float_repr : Q -> string) (v : cell) : bool :=
  String.eqb (Py.lower (py_str float_repr v)) "yes".

(** The calls of lines 35-99, before the table is shown. *)
Definition calls_before_table (df : DataFrame) (pie bar : Counts) : list widget :=
  [ st_write "📋 Columns found in your file:" (columns df);
    st_markdown "### 🥧 Pie Chart – Bug Origin by Type";
    st_pyplot_pie pie;
    st_markdown "### 📊 Bar Chart – Logic-Level Bugs by Category";
    st_bar_chart bar;
    st_subheader "📑 Table – Bug Classification Results" ].

(** The columns labelled [a] or [b], by position. *)
Definition lookup_either (a b : string) (df : DataFrame) : list (list cell) :=
  map snd (List.filter (fun c => String.eqb (fst c) a || String.eqb (fst c) b) (cols df)).


(** ** Sample data *)

Module Sample.

(** A stand-in for the pickled artifacts: the features are the documents, the
    class code is 3 for a text that mentions a crash or a timeout and 0
    otherwise, with fixed class probabilities. *)
Definition mentions (w s : string) : bool :=
  existsb (fun i => String.eqb (substring i (String.length w) s) w)
    (seq 0 (String.length s)).

Definition toy_code (s : string) : Z :=
  if mentions "crash" s || mentions "timeout" s then 3%Z else 0%Z.

Definition toy_proba (s : string) : list Q :=
  if mentions "crash" s || mentions "timeout" s
  then [1 # 20; 1 # 20; 1 # 20; 163 # 200; 7 # 200]
  else [2 # 3; 1 # 12; 1 # 12; 1 # 12; 1 # 12].

Definition toy : Classifier :=
  mkClassifier (list string)
    (fun docs => inr docs)
    (fun X => inr (Codes (map toy_code X)))
    (fun X => inr (map toy_proba X)).

(** A model that answers with labels. *)
Definition toy_labels : Classifier :=
  mkClassifier (list string)
    (fun docs => inr docs)
    (fun X => inr (Labels (map (fun s => if mentions "crash" s then "Backend" else "Frontend") X)))
    (fun X => inr (map toy_proba X)).

Definition toy_repr (q : Q) : string := "0.5".

(** The three-row table of the specification's scenario. *)
Definition three_rows : DataFrame :=
  mkDataFrame 3
    [ ("Details", [CStr "null pointer crash"; CStr "button misaligned"; CStr "timeout on save"]);
      ("bug_type", [CStr "Server"; CStr "UI"; CStr "Server"]);
      ("Logical_Issue", [CStr "yes"; CStr "no"; CStr "yes"]) ].

(** A table with a missing description, mixed capitals and both identifier
    columns. *)
Definition five_rows : DataFrame :=
  mkDataFrame 5
    [ ("S.No", [CInt 11; CInt 12; CInt 13; CInt 14; CInt 15]);
      ("Bug ID", [CStr "B-1"; CStr "B-2"; CStr "B-3"; CStr "B-4"; CStr "B-5"]);
      ("Details", [CStr "crash on login"; CNull; CStr "label cut off"; CInt 404; CStr "timeout"]);
      ("bug_type", [CStr "Server"; CStr "UI"; CStr "UI"; CNull; CStr "Server"]);
      ("Logical_Issue", [CStr "YES"; CStr "yes"; CStr "No"; CNull; CStr "Yes"]) ].

(** The scenario's table without its [Logical_Issue] column. *)
Definition no_logical_issue : DataFrame :=
  mkDataFrame 3
    [ ("Details", [CStr "null pointer crash"; CStr "button misaligned"; CStr "timeout on save"]);
      ("bug_type", [CStr "Server"; CStr "UI"; CStr "Server"]) ].

(** A comma-separated upload without a [Details] column: [read_csv] parses
    it, and openpyxl refuses it as a workbook. *)
Definition summary_only : DataFrame :=
  mkDataFrame 1 [ ("Summary", [CStr "crash"]); ("bug_type", [CStr "UI"]) ].

Definition csv_without_details : UploadedFile :=
  mkUploadedFile "bugs.csv" (inr summary_only)
    (fun _ => inl (OtherError "File is not a zip file")).

(** A workbook of three rows under the header [Summary], [bug_type]: read
    without its first two sheet rows, the second of the three is taken for
    the header. *)
Definition summary_rows : DataFrame :=
  mkDataFrame 3
    [ ("Summary", [CStr "crash"; CStr "typo"; CStr "hang"]);
      ("bug_type", [CStr "Server"; CStr "UI"; CStr "Server"]) ].

Definition summary_rows_skipped : DataFrame :=
  mkDataFrame 1 [ ("typo", [CStr "hang"]); ("UI", [CStr "Server"]) ].

Definition xlsx_without_details : UploadedFile :=
  mkUploadedFile "bugs.xlsx" (inl (OtherError "'utf-8' codec can't decode byte"))
    (fun skip => inr (if (skip =? 0)%nat then summary_rows else summary_rows_skipped)).

(** A workbook of one row under that header: without its first two sheet
    rows nothing is left, and pandas answers with the empty frame. *)
Definition xlsx_one_row : UploadedFile :=
  mkUploadedFile "bugs.xlsx" (inl (OtherError "'utf-8' codec can't decode byte"))
    (fun skip => inr (if (skip =? 0)%nat then summary_only else mkDataFrame 0 [])).

(** A comma-separated upload that [read_csv] parses to [df]. *)
Definition csv_of (df : DataFrame) : UploadedFile :=
  mkUploadedFile "bugs.csv" (inr df)
    (fun _ => inl (OtherError "File is not a zip file")).

(** The rows of [five_rows], as the specification sees them. *)
Definition five_bug_rows : list BugRow :=
  [ mkBugRow (CStr "crash on login") (CStr "Server") (CStr "YES");
    mkBugRow CNull (CStr "UI") (CStr "yes");
    mkBugRow (CStr "label cut off") (CStr "UI") (CStr "No");
    mkBugRow (CInt 404) CNull CNull;
    mkBugRow (CStr "timeout") (CStr "Server") (CStr "Yes") ].

Definition five_details : list cell :=
  [CStr "crash on login"; CNull; CStr "label cut off"; CInt 404; CStr "timeout"].

(** What [toy] answers on the four texts of [five_rows] and on the three of
    [three_rows]. *)
Definition four_codes : Predictions := Codes [3; 0; 0; 3]%Z.
Definition four_probs : list Q := [163 # 200; 2 # 3; 2 # 3; 163 # 200].

Definition three_details : list cell :=
  [CStr "null pointer crash"; CStr "button misaligned"; CStr "timeout on save"].
Definition three_codes : Predictions := Codes [3; 0; 3]%Z.
Definition three_probs : list Q := [163 # 200; 2 # 3; 163 # 200].

Definition three_bug_rows : list BugRow :=
  [ mkBugRow (CStr "null pointer crash") (CStr "Server") (CStr "yes");
    mkBugRow (CStr "button misaligned") (CStr "UI") (CStr "no");
    mkBugRow (CStr "timeout on save") (CStr "Server") (CStr "yes") ].

End Sample.

(** ** What the two sinks take *)

(** [ax.pie] draws an aggregate that has an entry. *)
Definition drawable (c : Counts) : bool :=
  match c with SeriesCounts [] => false | SeriesCounts (_ :: _) => true end.

(** [st.dataframe] shows a table whose labels are all different. *)
Fixpoint distinct_labels (l : list string) : bool :=
  match l with
  | [] => true
  | k :: l' => negb (existsb (String.eqb k) l') && distinct_labels l'
  end.

Definition displayable (t : DataFrame) : bool := distinct_labels (columns t).

(** Some surviving row of the table has a [bug_type], for a table whose
    [Details] column is [d] and whose [bug_type] column is [bt]. *)
Definition pie_has_entry (d bt : list cell) : bool :=
  existsb Pd.notnull (Pd.select_rows (map Pd.notnull d) bt).

(** No label of the result table will be repeated: the table has at most one
    column among [S.No] and [Bug ID], and at most one under each label the
    script writes. *)
Definition result_labels_unique (df : DataFrame) : bool :=
  (length (lookup_either "S.No" "Bug ID" df) <=? 1)%nat
  && forallb (fun k => (label_count k df <=? 1)%nat)
       ["Predicted Category"; "Confidence Score"; "Logic-level Issue"].

(** More sample data. *)
Module Sample2.

(** A table with identifiers of its own, a missing description and flags in
    mixed capitals. *)
Definition with_ids : DataFrame :=
  mkDataFrame 4
    [ ("S.No", [CInt 7; CInt 8; CInt 9; CInt 10]);
      ("Details", [CStr "crash on login"; CNull; CStr "label cut off"; CStr "timeout"]);
      ("bug_type", [CStr "Server"; CStr "UI"; CStr "UI"; CStr "Server"]);
      ("Logical_Issue", [CStr "YES"; CStr "yes"; CStr "No"; CStr "Yes"]) ].

Definition ids_details : list cell :=
  [CStr "crash on login"; CNull; CStr "label cut off"; CStr "timeout"].
Definition ids_bug_type : list cell :=
  [CStr "Server"; CStr "UI"; CStr "UI"; CStr "Server"].
Definition ids_logical_issue : list cell :=
  [CStr "YES"; CStr "yes"; CStr "No"; CStr "Yes"].

Definition ids_bug_rows : list BugRow :=
  [ mkBugRow (CStr "crash on login") (CStr "Server") (CStr "YES");
    mkBugRow CNull (CStr "UI") (CStr "yes");
    mkBugRow (CStr "label cut off") (CStr "UI") (CStr "No");
    mkBugRow (CStr "timeout") (CStr "Server") (CStr "Yes") ].

(** What [Sample.toy] answers on its three texts. *)
Definition ids_codes : Predictions := Codes [3; 0; 3]%Z.
Definition ids_probs : list Q := [163 # 200; 2 # 3; 163 # 200].

(** A table without [bug_type]. *)
Definition no_bug_type : DataFrame :=
  mkDataFrame 2
    [ ("Details", [CStr "crash on login"; CStr "label cut off"]);
      ("Logical_Issue", [CStr "yes"; CStr "no"]) ].

(** The float64 values written 0.815, 0.185, 0.505, 0.495 and 0.575, and
    those written 0.82, 0.67 and 0.57. *)
Definition f_0_815 : Q := 1835216848153477 # 2251799813685248.
Definition f_0_185 : Q := 3332663724254167 # 18014398509481984.
Definition f_0_505 : Q := 4548635623644201 # 9007199254740992.
Definition f_0_495 : Q := 4458563631096791 # 9007199254740992.
Definition f_0_575 : Q := 2589569785738035 # 4503599627370496.
Definition f_0_82 : Q := 7385903388887613 # 9007199254740992.
Definition f_0_67 : Q := 6034823500676465 # 9007199254740992.
Definition f_0_57 : Q := 5134103575202365 # 9007199254740992.

(** A stand-in for a model of the two classes 0 and 3, with float64
    probabilities. *)
Definition proba64 (s : string) : list Q :=
  if Sample.mentions "crash" s || Sample.mentions "timeout" s
  then [f_0_185; f_0_815]
  else [f_0_505; f_0_495].

Definition toy64 : Classifier :=
  mkClassifier (list string)
    (fun docs => inr docs)
    (fun X => inr (Codes (map Sample.toy_code X)))
    (fun X => inr (map proba64 X)).

Definition ids_matrix64 : list (list Q) :=
  [[f_0_185; f_0_815]; [f_0_505; f_0_495]; [f_0_185; f_0_815]].

End Sample2.

(** * Facts about lists and masks *)

Section Masks.

Context {A B : Type}.

Lemma select_rows_map (f : A -> bool) (g : A -> B) (l : list A) :
  Pd.select_rows (map f l) (map g l) = map g (List.filter f l).
Proof.
  induction l as [|x l IH]; simpl; [reflexivity|].
  destruct (f x); simpl; by rewrite IH.
Qed.

Lemma select_rows_self (f : A -> bool) (l : list A) :
  Pd.select_rows (map f l) l = List.filter f l.
Proof.
  induction l as [|x l IH]; simpl; [reflexivity|].
  destruct (f x); simpl; by rewrite IH.
Qed.

Lemma length_select_rows (mask : list bool) (l : list A) :
  length l = length mask ->
  length (Pd.select_rows mask l) = length (List.filter id mask).
Proof.
  revert l. induction mask as [|b mask IH]; intros [|x l] Hl; simpl in *; try lia.
  destruct b; simpl; rewrite IH; lia.
Qed.

Lemma select_rows_all (mask : list bool) (l : list A) :
  length l = length mask -> forallb id mask = true ->
  Pd.select_rows mask l = l.
Proof.
  revert l. induction mask as [|b mask IH]; intros [|x l] Hl Hall; simpl in *; try lia; try reflexivity.
  apply andb_true_iff in Hall as [Hb Hall]. unfold id in Hb. subst b.
  f_equal. apply IH; [lia | exact Hall].
Qed.

Lemma filter_all_length (mask : list bool) :
  forallb id mask = true -> length (List.filter id mask) = length mask.
Proof.
  induction mask as [|b mask IH]; simpl; [reflexivity|].
  intros Hall. apply andb_true_iff in Hall as [Hb Hall]. unfold id in Hb. subst b.
  simpl. by rewrite IH.
Qed.

Lemma length_filter_map (f : A -> bool) (l : list A) :
  length (List.filter id (map f l)) = length (List.filter f l).
Proof.
  induction l as [|x l IH]; simpl; [reflexivity|].
  change (id (f x)) with (f x). destruct (f x); simpl; by rewrite IH.
Qed.

Lemma forallb_map_filter (f : A -> bool) (l : list A) :
  forallb id (map f (List.filter f l)) = true.
Proof.
  induction l as [|x l IH]; simpl; [reflexivity|].
  destruct (f x) eqn:E; simpl; [|exact IH].
  change (id (f x)) with (f x). by rewrite E.
Qed.

End Masks.

(** * Facts about frames *)

Section Frames.

Implicit Types (df : DataFrame) (k : string).

Lemma in_columns_lookup_all k df :
  Pd.in_columns k df = negb (match Pd.lookup_all k df with [] => true | _ => false end).
Proof.
  unfold Pd.in_columns, Pd.lookup_all, columns.
  induction (cols df) as [|[k' c] l IH]; simpl; [reflexivity|].
  rewrite (String.eqb_sym k k'). destruct (String.eqb k' k); simpl; [reflexivity | exact IH].
Qed.

Lemma in_columns_false k df :
  Pd.in_columns k df = false <-> Pd.lookup_all k df = [].
Proof.
  rewrite in_columns_lookup_all. destruct (Pd.lookup_all k df); simpl; split; congruence.
Qed.

Lemma in_columns_unique k df c :
  Pd.lookup_all k df = [c] -> Pd.in_columns k df = true.
Proof. intros H. rewrite in_columns_lookup_all, H. reflexivity. Qed.

Lemma getitem_unique k df c :
  Pd.lookup_all k df = [c] -> Pd.getitem k df = inr (Pd.Series c).
Proof. intros H. unfold Pd.getitem. by rewrite H. Qed.

Lemma getitem_absent k df :
  Pd.in_columns k df = false -> Pd.getitem k df = inl (KeyError (Pd.quoted k)).
Proof. intros H. apply in_columns_false in H. unfold Pd.getitem. by rewrite H. Qed.

Lemma lookup_all_assign_ne k k' v df :
  k <> k' -> Pd.lookup_all k (Pd.assign k' v df) = Pd.lookup_all k df.
Proof.
  intros Hne. unfold Pd.assign, Pd.lookup_all.
  destruct (Pd.in_columns k' df); simpl.
  - induction (cols df) as [|[k0 c] l IH]; simpl; [reflexivity|].
    destruct (String.eqb_spec k0 k'); simpl.
    + subst k0. destruct (String.eqb_spec k' k); [congruence|]. exact IH.
    + destruct (String.eqb k0 k); simpl; by rewrite IH.
  - rewrite List.filter_app, map_app. simpl.
    destruct (String.eqb_spec k' k); [congruence|]. simpl. by rewrite app_nil_r.
Qed.

Lemma lookup_all_overwrite k v (l : list (string * list cell)) :
  map snd (List.filter (fun c => String.eqb (fst c) k)
             (map (fun c => if String.eqb (fst c) k then (k, v) else c) l)) =
  map (fun _ => v) (map snd (List.filter (fun c => String.eqb (fst c) k) l)).
Proof.
  induction l as [|[k0 c] l IH]; simpl; [reflexivity|].
  destruct (String.eqb_spec k0 k); simpl.
  - rewrite String.eqb_refl. simpl. by rewrite IH.
  - destruct (String.eqb_spec k0 k); [congruence|]. exact IH.
Qed.

Lemma lookup_all_assign_eq k v df :
  Pd.lookup_all k (Pd.assign k v df) =
    match Pd.lookup_all k df with
    | [] => [v]
    | cs => map (fun _ => v) cs
    end.
Proof.
  unfold Pd.assign. rewrite in_columns_lookup_all.
  destruct (Pd.lookup_all k df) as [|c0 cs0] eqn:E; simpl.
  - unfold Pd.lookup_all in *. simpl. rewrite List.filter_app, map_app, E. simpl.
    by rewrite String.eqb_refl.
  - unfold Pd.lookup_all in *. simpl. rewrite lookup_all_overwrite, E. reflexivity.
Qed.

Lemma lookup_all_assign_present k v df :
  Pd.lookup_all k (Pd.assign k v df) <> [] /\
  Forall (eq v) (Pd.lookup_all k (Pd.assign k v df)).
Proof.
  rewrite lookup_all_assign_eq.
  destruct (Pd.lookup_all k df) as [|c cs]; split; try discriminate.
  - by repeat constructor.
  - apply Forall_forall. intros x Hx. apply list_elem_of_In in Hx.
    apply in_map_iff in Hx as (? & ? & ?). by subst.
Qed.

Lemma len_assign k v df : len (Pd.assign k v df) = len df.
Proof. unfold Pd.assign. by destruct (Pd.in_columns k df). Qed.

Lemma well_formed_assign k v df :
  well_formed df -> length v = len df -> well_formed (Pd.assign k v df).
Proof.
  unfold well_formed. intros Hwf Hv. rewrite len_assign.
  unfold Pd.assign. destruct (Pd.in_columns k df); simpl.
  - induction Hwf as [|[k0 c] l Hc Hl IH]; simpl; constructor; [|exact IH].
    destruct (String.eqb k0 k); simpl; auto.
  - apply Forall_app. split; [exact Hwf|]. by repeat constructor.
Qed.

Lemma lookup_all_df_mask k mask df :
  Pd.lookup_all k (Pd.df_mask mask df) = map (Pd.select_rows mask) (Pd.lookup_all k df).
Proof.
  unfold Pd.df_mask, Pd.lookup_all. simpl.
  induction (cols df) as [|[k0 c] l IH]; simpl; [reflexivity|].
  destruct (String.eqb k0 k); simpl; by rewrite IH.
Qed.

Lemma columns_df_mask mask df : columns (Pd.df_mask mask df) = columns df.
Proof.
  unfold Pd.df_mask, columns. simpl. rewrite map_map. reflexivity.
Qed.

Lemma in_columns_df_mask k mask df :
  Pd.in_columns k (Pd.df_mask mask df) = Pd.in_columns k df.
Proof. unfold Pd.in_columns. by rewrite columns_df_mask. Qed.

Lemma in_columns_assign_ne k k' v df :
  k <> k' -> Pd.in_columns k (Pd.assign k' v df) = Pd.in_columns k df.
Proof.
  intros Hne. rewrite !in_columns_lookup_all. by rewrite lookup_all_assign_ne.
Qed.

Lemma in_columns_assign_eq k v df : Pd.in_columns k (Pd.assign k v df) = true.
Proof.
  rewrite in_columns_lookup_all.
  destruct (lookup_all_assign_present k v df) as [Hne _].
  by destruct (Pd.lookup_all k (Pd.assign k v df)).
Qed.

Lemma well_formed_df_mask mask df :
  well_formed df -> length mask = len df -> well_formed (Pd.df_mask mask df).
Proof.
  unfold well_formed, Pd.df_mask. simpl. intros Hwf Hm.
  induction Hwf as [|[k0 c] l Hc Hl IH]; simpl; constructor; [|exact IH].
  simpl in *. apply length_select_rows. lia.
Qed.

Lemma lookup_all_length k df c :
  well_formed df -> c ∈ Pd.lookup_all k df -> length c = len df.
Proof.
  unfold well_formed, Pd.lookup_all. intros Hwf Hc.
  apply list_elem_of_In, in_map_iff in Hc as ([k0 c0] & <- & Hin).
  apply List.filter_In in Hin as [Hin _].
  rewrite Forall_forall in Hwf. apply (Hwf (k0, c0)). by apply list_elem_of_In.
Qed.

Lemma lookup_all_rename_ne k a b df :
  k <> a -> k <> b -> Pd.lookup_all k (Pd.rename a b df) = Pd.lookup_all k df.
Proof.
  intros Ha Hb. unfold Pd.rename, Pd.lookup_all. simpl.
  induction (cols df) as [|[k0 c] l IH]; simpl; [reflexivity|].
  destruct (String.eqb_spec k0 a); simpl.
  - subst k0. destruct (String.eqb_spec b k); [congruence|].
    destruct (String.eqb_spec a k); [congruence|]. exact IH.
  - destruct (String.eqb k0 k); simpl; by rewrite IH.
Qed.

Lemma well_formed_rename a b df : well_formed df -> well_formed (Pd.rename a b df).
Proof.
  unfold well_formed, Pd.rename. simpl. intros Hwf.
  induction Hwf as [|[k0 c] l Hc Hl IH]; simpl; constructor; [|exact IH].
  destruct (String.eqb k0 a); simpl; auto.
Qed.

End Frames.

(** * The effect monad *)

Lemma bind_emit {A} (w : widget) (k : unit -> M A) :
  (emit w ≫= k) = (w :: fst (k tt), snd (k tt)).
Proof. unfold mbind, M_bind, emit. by destruct (k tt). Qed.

Lemma bind_lift_inr {A B} (a : A) (k : A -> M B) : (lift (inr a) ≫= k) = k a.
Proof. unfold mbind, M_bind, lift. by destruct (k a). Qed.

Lemma bind_lift_inl {A B} (e : Exn) (k : A -> M B) :
  (lift (inl e) ≫= k) = ([], inl e).
Proof. reflexivity. Qed.

Lemma bind_value {A B} (out : list widget) (a : A) (k : A -> M B) :
  ((out, inr a) ≫= k) = (out ++ fst (k a), snd (k a)).
Proof. unfold mbind, M_bind. by destruct (k a). Qed.

(** * Python equality on cells *)

Lemma cell_eqb_refl x : Pd.cell_eqb x x = true.
Proof.
  destruct x as [|s|z|q|b]; simpl; try reflexivity.
  - apply String.eqb_refl.
  - apply Qeq_bool_iff. reflexivity.
  - apply Qeq_bool_iff. reflexivity.
  - apply Qeq_bool_iff. reflexivity.
Qed.

Lemma cell_eqb_number x y :
  Pd.cell_eqb x y = true ->
  (x = CNull /\ y = CNull) \/ (exists s, x = CStr s /\ y = CStr s) \/
  (exists p q, Pd.as_number x = Some p /\ Pd.as_number y = Some q /\ (p == q)%Q).
Proof.
  destruct x as [|s|z|q|b], y as [|s'|z'|q'|b']; simpl; try discriminate; intros H;
    try (by left);
    try (right; left; apply String.eqb_eq in H; subst; by eexists);
    right; right; apply Qeq_bool_iff in H; eauto.
Qed.

Lemma cell_eqb_of_number x y p q :
  Pd.as_number x = Some p -> Pd.as_number y = Some q -> (p == q)%Q ->
  Pd.cell_eqb x y = true.
Proof.
  intros Hx Hy Hpq. apply Qeq_bool_iff in Hpq.
  destruct x, y; simpl in *; try discriminate; congruence.
Qed.

Lemma cell_eqb_sym x y : Pd.cell_eqb x y = true -> Pd.cell_eqb y x = true.
Proof.
  intros H. apply cell_eqb_number in H as [[-> ->]|[(s & -> & ->)|(p & q & Hx & Hy & Hpq)]].
  - reflexivity.
  - apply cell_eqb_refl.
  - eapply cell_eqb_of_number; eauto. by symmetry.
Qed.

Lemma cell_eqb_trans x y z :
  Pd.cell_eqb x y = true -> Pd.cell_eqb y z = true -> Pd.cell_eqb x z = true.
Proof.
  intros H1 H2.
  apply cell_eqb_number in H1 as [[-> ->]|[(s & -> & ->)|(p & q & Hx & Hy & Hpq)]];
    [exact H2 | exact H2 |].
  apply cell_eqb_number in H2 as [[-> ->]|[(s & -> & ->)|(p' & q' & Hy' & Hz & Hpq')]];
    try discriminate.
  rewrite Hy in Hy'. injection Hy' as <-.
  eapply cell_eqb_of_number; eauto. by etransitivity.
Qed.

Lemma cell_eqb_left k x v :
  Pd.cell_eqb k x = true -> Pd.cell_eqb k v = Pd.cell_eqb x v.
Proof.
  intros Hkx.
  destruct (Pd.cell_eqb x v) eqn:Exv.
  - eapply cell_eqb_trans; eauto.
  - destruct (Pd.cell_eqb k v) eqn:Ekv; [|reflexivity].
    rewrite <- Exv. symmetry. eapply cell_eqb_trans; [|exact Ekv]. by apply cell_eqb_sym.
Qed.

Lemma cell_eqb_null x v : Pd.cell_eqb x v = true -> Pd.isnull v = Pd.isnull x.
Proof.
  intros H. apply cell_eqb_number in H as [[-> ->]|[(s & -> & ->)|(p & q & Hx & Hy & Hpq)]];
    try reflexivity.
  destruct x, v; simpl in *; try discriminate; reflexivity.
Qed.

(** * [value_counts] *)

Lemma count_of_bump x v acc :
  count_of v (Pd.bump Pd.cell_eqb x acc) =
  (count_of v acc + (if Pd.cell_eqb x v then 1 else 0))%nat.
Proof.
  unfold count_of.
  induction acc as [|[k n] acc IH]; simpl.
  - destruct (Pd.cell_eqb x v); reflexivity.
  - destruct (Pd.cell_eqb k x) eqn:Ekx; simpl.
    + rewrite (cell_eqb_left k x v Ekx).
      destruct (Pd.cell_eqb x v); simpl; lia.
    + destruct (Pd.cell_eqb k v) eqn:Ekv; simpl; [|exact IH].
      destruct (Pd.cell_eqb x v) eqn:Exv; [|lia].
      exfalso. apply cell_eqb_sym in Exv.
      rewrite (cell_eqb_trans k v x Ekv Exv) in Ekx. discriminate.
Qed.

Lemma count_of_fold l v acc :
  Pd.isnull v = false ->
  count_of v (fold_left (fun acc x => if Pd.isnull x then acc else Pd.bump Pd.cell_eqb x acc) l acc) =
  (count_of v acc + length (List.filter (fun x => Pd.cell_eqb x v) l))%nat.
Proof.
  intros Hv. revert acc.
  induction l as [|x l IH]; intros acc; simpl; [lia|].
  rewrite IH.
  destruct (Pd.isnull x) eqn:Ex.
  - destruct (Pd.cell_eqb x v) eqn:Exv; [|reflexivity].
    apply cell_eqb_null in Exv. congruence.
  - rewrite count_of_bump. destruct (Pd.cell_eqb x v); simpl; lia.
Qed.

Lemma count_of_count_values l v :
  Pd.isnull v = false ->
  count_of v (Pd.count_values Pd.cell_eqb Pd.isnull l) =
  length (List.filter (fun x => Pd.cell_eqb x v) l).
Proof. intros Hv. unfold Pd.count_values. by rewrite count_of_fold. Qed.

Lemma forallb_bump x k acc :
  Pd.cell_eqb k x = false ->
  forallb (fun kn => negb (Pd.cell_eqb (fst kn) k)) acc = true ->
  forallb (fun kn => negb (Pd.cell_eqb (fst kn) k)) (Pd.bump Pd.cell_eqb x acc) = true.
Proof.
  intros Hkx.
  induction acc as [|[k' n] acc IH]; simpl; intros H.
  - destruct (Pd.cell_eqb x k) eqn:E; [|reflexivity].
    apply cell_eqb_sym in E. congruence.
  - apply andb_true_iff in H as [H1 H2].
    destruct (Pd.cell_eqb k' x); simpl; rewrite H1; simpl; auto.
Qed.

Lemma distinct_keys_bump x acc :
  Pd.isnull x = false -> distinct_keys acc = true ->
  distinct_keys (Pd.bump Pd.cell_eqb x acc) = true.
Proof.
  intros Hx.
  induction acc as [|[k n] acc IH]; simpl; intros H.
  - by rewrite Hx.
  - apply andb_true_iff in H as [H H4]. apply andb_true_iff in H as [H H3].
    apply andb_true_iff in H as [H1 H2].
    destruct (Pd.cell_eqb k x) eqn:Ekx; simpl.
    + rewrite H1, H3, H4. reflexivity.
    + rewrite H1, H2, (forallb_bump x k acc Ekx H3), (IH H4). reflexivity.
Qed.

Lemma distinct_keys_count_values l :
  distinct_keys (Pd.count_values Pd.cell_eqb Pd.isnull l) = true.
Proof.
  unfold Pd.count_values.
  assert (H : distinct_keys [] = true) by reflexivity. revert H.
  generalize (@nil (cell * nat)).
  induction l as [|x l IH]; intros acc Hacc; simpl; [exact Hacc|].
  apply IH. destruct (Pd.isnull x) eqn:Ex; [exact Hacc|].
  by apply distinct_keys_bump.
Qed.

Lemma occurrences_map {A} (g : A -> cell) (v : cell) (l : list A) :
  length (List.filter (fun x => Pd.cell_eqb x v) (map g l)) =
  length (List.filter (fun r => Pd.cell_eqb (g r) v) l).
Proof.
  induction l as [|x l IH]; simpl; [reflexivity|].
  destruct (Pd.cell_eqb (g x) v); simpl; by rewrite IH.
Qed.

(** * The stages of the script *)

Lemma rows_of_single (d : list cell) :
  map (forallb Pd.notnull) (Pd.rows_of (length d) [d]) = map Pd.notnull d.
Proof.
  unfold Pd.rows_of, Pd.row_at. rewrite map_map. simpl.
  induction d as [|x d IH]; simpl; [reflexivity|].
  rewrite <- seq_shift, map_map. simpl. rewrite IH, andb_true_r. reflexivity.
Qed.

Lemma lookup_either_rename a b (l : list (string * list cell)) :
  map snd (List.filter (fun c => String.eqb (fst c) b)
             (map (fun c => if String.eqb (fst c) a then (b, snd c) else c) l)) =
  map snd (List.filter (fun c => String.eqb (fst c) a || String.eqb (fst c) b) l).
Proof.
  induction l as [|[k0 c] l IH]; simpl; [reflexivity|].
  destruct (String.eqb k0 a); simpl.
  - rewrite String.eqb_refl. simpl. by rewrite IH.
  - destruct (String.eqb k0 b); simpl; by rewrite IH.
Qed.

Lemma in_columns_rename a b df :
  Pd.in_columns a df = true -> Pd.in_columns b (Pd.rename a b df) = true.
Proof.
  rewrite !in_columns_lookup_all. unfold Pd.lookup_all, Pd.rename. simpl.
  rewrite lookup_either_rename.
  induction (cols df) as [|[k0 c] l IH]; simpl; [done|].
  destruct (String.eqb k0 a); simpl; [done|].
  destruct (String.eqb k0 b); simpl; [done|]. exact IH.
Qed.

Section Stages.

Context (float_repr : Q -> string).
Context (load_model : Exn + Classifier).

Local Abbreviation str := (py_str float_repr).
Local Abbreviation text := (fun v : cell => CStr (py_str float_repr v)).

(** The frame after lines 40-41. *)
Lemma drop_null_details_ok df d :
  well_formed df -> Pd.lookup_all "Details" df = [d] ->
  drop_null_details float_repr df =
    inr (Pd.assign "Details" (map text (List.filter Pd.notnull d))
           (Pd.df_mask (map Pd.notnull d) df)).
Proof.
  intros Hwf Hd.
  assert (Hlen : length d = len df).
  { apply (lookup_all_length "Details" df d Hwf). rewrite Hd. by left. }
  unfold drop_null_details, Pd.dropna. rewrite Hd, <- Hlen, rows_of_single.
  simpl. unfold Pd.getitem. rewrite lookup_all_df_mask, Hd. simpl.
  by rewrite select_rows_self.
Qed.

Lemma derive_bug_id_spec df :
  exists df',
    derive_bug_id df = inr df' /\ len df' = len df /\
    (well_formed df -> well_formed df') /\
    Pd.in_columns "Bug ID" df' = true /\
    (forall k, k <> "S.No" -> k <> "Bug ID" -> Pd.lookup_all k df' = Pd.lookup_all k df).
Proof.
  unfold derive_bug_id.
  destruct (Pd.in_columns "S.No" df) eqn:Hs; [|destruct (Pd.in_columns "Bug ID" df) eqn:Hb]; simpl.
  - eexists. split; [reflexivity|]. repeat split.
    + apply well_formed_rename.
    + by apply in_columns_rename.
    + intros k H1 H2. by apply lookup_all_rename_ne.
  - eexists. split; [reflexivity|]. repeat split; auto.
  - unfold Pd.setitem, bug_id_range. rewrite length_map, length_seq, Nat.eqb_refl.
    eexists. split; [reflexivity|]. repeat split.
    + apply len_assign.
    + intros Hwf. apply well_formed_assign; [exact Hwf|]. by rewrite length_map, length_seq.
    + apply in_columns_assign_eq.
    + intros k H1 H2. by apply lookup_all_assign_ne.
Qed.

Lemma add_predictions_ok df c preds probs :
  Pd.lookup_all "Details" df = [c] ->
  classify load_model (map str c) = inr (preds, probs) ->
  pred_length preds = len df -> length probs = len df ->
  add_predictions float_repr load_model df =
    inr (Pd.assign "Confidence Score" (confidence_score probs)
           (Pd.assign "Predicted Category" (predicted_category preds) df)).
Proof.
  intros Hc Hcl Hp Hq. unfold add_predictions.
  rewrite (getitem_unique _ _ _ Hc). simpl. rewrite Hcl. simpl.
  unfold Pd.setitem.
  assert (Hpl : length (predicted_category preds) = len df).
  { rewrite <- Hp. destruct preds; simpl; apply length_map. }
  rewrite Hpl, Nat.eqb_refl. simpl.
  unfold confidence_score. rewrite length_map, len_assign, Hq, Nat.eqb_refl. reflexivity.
Qed.

Lemma add_logic_level_present df li :
  Pd.lookup_all "Logical_Issue" df = [li] ->
  add_logic_level df = inr (Pd.assign "Logic-level Issue" li df).
Proof.
  intros H. unfold add_logic_level.
  rewrite (in_columns_unique _ _ _ H), (getitem_unique _ _ _ H). reflexivity.
Qed.

Lemma add_logic_level_absent df :
  Pd.in_columns "Logical_Issue" df = false ->
  add_logic_level df =
    inr (Pd.assign "Logic-level Issue" (repeat (CStr "N/A") (len df)) df).
Proof. intros H. unfold add_logic_level. by rewrite H. Qed.

End Stages.

(** * Selecting the columns of the result table *)

Lemma filter_label_twice k k0 (l : list (string * list cell)) :
  List.filter (fun c => String.eqb (fst c) k)
    (List.filter (fun c => String.eqb (fst c) k0) l) =
  if String.eqb k0 k then List.filter (fun c => String.eqb (fst c) k0) l else [].
Proof.
  induction l as [|[k1 c] l IH]; simpl; [by destruct (String.eqb k0 k)|].
  destruct (String.eqb_spec k1 k0); simpl; [|exact IH].
  subst k1. rewrite IH. destruct (String.eqb k0 k); reflexivity.
Qed.

Lemma select_columns_spec keys df :
  (forall k, k ∈ keys -> Pd.in_columns k df = true) -> NoDup keys ->
  exists cs,
    Pd.select_columns keys df = inr cs /\
    Forall (fun c => c ∈ cols df) cs /\
    forall k, map snd (List.filter (fun c => String.eqb (fst c) k) cs) =
              if bool_decide (k ∈ keys) then Pd.lookup_all k df else [].
Proof.
  induction keys as [|k0 keys IH]; intros Hin Hnd.
  - exists []. split; [reflexivity|]. split; [constructor|]. intros k. reflexivity.
  - apply NoDup_cons in Hnd as [Hk0 Hnd].
    assert (Hin' : forall k, k ∈ keys -> Pd.in_columns k df = true).
    { intros k Hk. apply Hin. by right. }
    destruct (IH Hin' Hnd) as (rest & Hrest & Hsub & Hlook).
    assert (H0 : Pd.in_columns k0 df = true) by (apply Hin; by left).
    rewrite in_columns_lookup_all in H0. unfold Pd.lookup_all in H0.
    exists (List.filter (fun c => String.eqb (fst c) k0) (cols df) ++ rest).
    split; [|split].
    + simpl. rewrite Hrest.
      by destruct (List.filter (fun c => String.eqb (fst c) k0) (cols df)).
    + apply Forall_app. split; [|exact Hsub].
      apply Forall_forall. intros c Hc. apply list_elem_of_In, List.filter_In in Hc as [Hc _].
      by apply list_elem_of_In.
    + intros k. rewrite List.filter_app, map_app, filter_label_twice, Hlook.
      destruct (String.eqb_spec k0 k) as [->|Hne].
      * rewrite (bool_decide_eq_false_2 _ Hk0), app_nil_r.
        rewrite bool_decide_eq_true_2 by (by left). reflexivity.
      * simpl. destruct (bool_decide (k ∈ keys)) eqn:Ek.
        -- apply bool_decide_eq_true in Ek. rewrite bool_decide_eq_true_2 by (by right). reflexivity.
        -- apply bool_decide_eq_false in Ek. rewrite bool_decide_eq_false_2; [reflexivity|].
           intros Hk. apply elem_of_cons in Hk as [->|Hk]; [by apply Hne | by apply Ek].
Qed.

Lemma table_cols_NoDup : NoDup table_cols.
Proof. apply (bool_decide_unpack (NoDup table_cols)). vm_compute. exact I. Qed.

Lemma select_table df :
  (forall k, k ∈ table_cols -> Pd.in_columns k df = true) ->
  exists t,
    Pd.select table_cols df = inr t /\ len t = len df /\
    (well_formed df -> well_formed t) /\
    forall k, k ∈ table_cols -> Pd.lookup_all k t = Pd.lookup_all k df.
Proof.
  intros Hin.
  destruct (select_columns_spec table_cols df Hin table_cols_NoDup) as (cs & Hcs & Hsub & Hlook).
  exists (mkDataFrame (len df) cs). unfold Pd.select. rewrite Hcs. repeat split.
  - unfold well_formed. simpl. intros Hwf. rewrite Forall_forall in *.
    intros c Hc. apply Hwf, Hsub, Hc.
  - intros k Hk. unfold Pd.lookup_all at 1. simpl. rewrite Hlook.
    by rewrite bool_decide_eq_true_2.
Qed.

(** * The composed frame *)

Section Composed.

Context (float_repr : Q -> string).
Context (load_model : Exn + Classifier).
Context (df : DataFrame) (d : list cell) (preds : Predictions) (probs : list Q).

Local Abbreviation str := (py_str float_repr).
Local Abbreviation text := (fun v : cell => CStr (py_str float_repr v)).
Local Abbreviation kept := (List.filter Pd.notnull d).
Local Abbreviation mask := (map Pd.notnull d).

Hypothesis Hwf : well_formed df.
Hypothesis Hd : Pd.lookup_all "Details" df = [d].
Hypothesis Hcl : classify load_model (map str kept) = inr (preds, probs).
Hypothesis Hp : pred_length preds = length kept.
Hypothesis Hq : length probs = length kept.

Local Abbreviation kept_frame := (details_kept float_repr df d).
Local Abbreviation logic_values := (logic_level_values df d).

Lemma length_d : length d = len df.
Proof. apply (lookup_all_length "Details" df d Hwf). rewrite Hd. by left. Qed.

Lemma len_details_kept : len kept_frame = length kept.
Proof.
  unfold details_kept. rewrite len_assign. simpl. apply length_filter_map.
Qed.

Lemma well_formed_details_kept : well_formed kept_frame.
Proof.
  unfold details_kept. apply well_formed_assign.
  - apply well_formed_df_mask; [exact Hwf|]. rewrite length_map. apply length_d.
  - rewrite length_map. simpl. by rewrite length_filter_map.
Qed.

Lemma lookup_details_kept :
  Pd.lookup_all "Details" kept_frame = [map text kept].
Proof.
  unfold details_kept. rewrite lookup_all_assign_eq, lookup_all_df_mask, Hd. reflexivity.
Qed.

Lemma lookup_other_details_kept k :
  k <> "Details" ->
  Pd.lookup_all k kept_frame = map (Pd.select_rows mask) (Pd.lookup_all k df).
Proof.
  intros Hk. unfold kept_frame. by rewrite lookup_all_assign_ne, lookup_all_df_mask.
Qed.

Lemma in_columns_details_kept k :
  Pd.in_columns k kept_frame = Pd.in_columns k df.
Proof.
  rewrite !in_columns_lookup_all.
  destruct (String.eqb_spec k "Details") as [->|Hk].
  - rewrite lookup_details_kept, Hd. reflexivity.
  - rewrite lookup_other_details_kept by exact Hk. by destruct (Pd.lookup_all k df).
Qed.

(** Lines 40-68 run through, and the frame they leave is the one of line 47
    with three columns stored into it. *)
Lemma compose_ok :
  (length (Pd.lookup_all "Logical_Issue" df) <= 1)%nat ->
  exists ids,
    derive_bug_id kept_frame = inr ids /\
    compose float_repr load_model df =
      inr (Pd.assign "Logic-level Issue" logic_values
             (Pd.assign "Confidence Score" (confidence_score probs)
                (Pd.assign "Predicted Category" (predicted_category preds) ids))) /\
    len ids = length kept /\ well_formed ids /\
    Pd.in_columns "Bug ID" ids = true /\
    (forall k, k <> "S.No" -> k <> "Bug ID" ->
       Pd.lookup_all k ids = Pd.lookup_all k kept_frame).
Proof.
  intros HL.
  destruct (derive_bug_id_spec kept_frame) as (ids & Hids & Hlen & Hwf' & Hbug & Hsame).
  exists ids. split; [exact Hids|].
  rewrite len_details_kept in Hlen.
  repeat split; auto using well_formed_details_kept.
  unfold compose. rewrite (drop_null_details_ok float_repr df d Hwf Hd).
  fold kept_frame. simpl. rewrite Hids. simpl.
  assert (Hdet : Pd.lookup_all "Details" ids = [map text kept]).
  { rewrite Hsame by discriminate. apply lookup_details_kept. }
  rewrite (add_predictions_ok float_repr load_model ids (map text kept) preds probs Hdet);
    [|by rewrite map_map|congruence|congruence].
  simpl.
  set (G := Pd.assign "Confidence Score" _ _).
  assert (HLG : Pd.lookup_all "Logical_Issue" G =
                map (Pd.select_rows mask) (Pd.lookup_all "Logical_Issue" df)).
  { unfold G. rewrite !lookup_all_assign_ne by discriminate.
    rewrite Hsame by discriminate. by apply lookup_other_details_kept. }
  unfold logic_level_values.
  destruct (Pd.lookup_all "Logical_Issue" df) as [|li [|li' rest]] eqn:E; simpl in HL, HLG.
  - rewrite add_logic_level_absent by (by apply in_columns_false).
    unfold G at 1. rewrite !len_assign, Hlen. reflexivity.
  - by rewrite (add_logic_level_present G _ HLG).
  - lia.
Qed.

End Composed.

(** * A run that goes through *)

Ltac decide_list := apply (bool_decide_unpack _); vm_compute; exact I.

Section Run.

Context (float_repr : Q -> string).
Context (load_model : Exn + Classifier).
Context (df : DataFrame) (d : list cell) (preds : Predictions) (probs : list Q).

Local Abbreviation str := (py_str float_repr).
Local Abbreviation text := (fun v : cell => CStr (py_str float_repr v)).
Local Abbreviation kept := (List.filter Pd.notnull d).
Local Abbreviation mask := (map Pd.notnull d).
Local Abbreviation logic_values := (logic_level_values df d).

Hypothesis Hwf : well_formed df.
Hypothesis Hd : Pd.lookup_all "Details" df = [d].
Hypothesis Hcl : classify load_model (map str kept) = inr (preds, probs).
Hypothesis Hp : pred_length preds = length kept.
Hypothesis Hq : length probs = length kept.

Local Abbreviation frame_of := (composed df d preds probs).

Lemma length_logic_level_values : length logic_values = length kept.
Proof.
  unfold logic_level_values.
  destruct (Pd.lookup_all "Logical_Issue" df) as [|li [|li' rest]] eqn:E;
    try apply repeat_length.
  rewrite length_select_rows, length_filter_map; [reflexivity|].
  rewrite length_map, (length_d df d Hwf Hd).
  apply (lookup_all_length "Logical_Issue" df li Hwf). rewrite E. by left.
Qed.

Section Frame.

Context (ids : DataFrame).
Hypothesis Hlen : len ids = length kept.
Hypothesis Hwfi : well_formed ids.
Hypothesis Hbug : Pd.in_columns "Bug ID" ids = true.
Hypothesis Hsame : forall k, k <> "S.No" -> k <> "Bug ID" ->
  Pd.lookup_all k ids = Pd.lookup_all k (details_kept float_repr df d).

Lemma len_composed : len (frame_of ids) = length kept.
Proof. unfold composed. by rewrite !len_assign. Qed.

Lemma well_formed_composed : well_formed (frame_of ids).
Proof.
  unfold composed. repeat apply well_formed_assign; try exact Hwfi; rewrite ?len_assign, Hlen.
  - rewrite <- Hp. destruct preds; apply length_map.
  - unfold confidence_score. by rewrite length_map.
  - apply length_logic_level_values.
Qed.

Lemma lookup_composed_input k :
  k ∉ ["Details"; "S.No"; "Bug ID"; "Predicted Category"; "Confidence Score"; "Logic-level Issue"] ->
  Pd.lookup_all k (frame_of ids) = map (Pd.select_rows mask) (Pd.lookup_all k df).
Proof.
  intros Hk. unfold composed.
  rewrite !lookup_all_assign_ne by (intros ->; apply Hk; decide_list).
  rewrite Hsame by (intros ->; apply Hk; decide_list).
  apply lookup_other_details_kept. intros ->. apply Hk. decide_list.
Qed.

Lemma lookup_composed_details :
  Pd.lookup_all "Details" (frame_of ids) = [map text kept].
Proof.
  unfold composed. rewrite !lookup_all_assign_ne by discriminate.
  rewrite Hsame by discriminate. by apply lookup_details_kept.
Qed.

Lemma lookup_composed_bug_id :
  Pd.lookup_all "Bug ID" (frame_of ids) = Pd.lookup_all "Bug ID" ids.
Proof. unfold composed. by rewrite !lookup_all_assign_ne by discriminate. Qed.

Lemma lookup_composed_category :
  Pd.lookup_all "Predicted Category" (frame_of ids) <> [] /\
  Forall (eq (predicted_category preds)) (Pd.lookup_all "Predicted Category" (frame_of ids)).
Proof.
  unfold composed. rewrite !lookup_all_assign_ne by discriminate.
  apply lookup_all_assign_present.
Qed.

Lemma lookup_composed_confidence :
  Pd.lookup_all "Confidence Score" (frame_of ids) <> [] /\
  Forall (eq (confidence_score probs)) (Pd.lookup_all "Confidence Score" (frame_of ids)).
Proof.
  unfold composed. rewrite !lookup_all_assign_ne by discriminate.
  apply lookup_all_assign_present.
Qed.

Lemma lookup_composed_logic_level :
  Pd.lookup_all "Logic-level Issue" (frame_of ids) <> [] /\
  Forall (eq logic_values) (Pd.lookup_all "Logic-level Issue" (frame_of ids)).
Proof. unfold composed. apply lookup_all_assign_present. Qed.

Lemma in_columns_nonempty k (f : DataFrame) :
  Pd.lookup_all k f <> [] -> Pd.in_columns k f = true.
Proof. rewrite in_columns_lookup_all. by destruct (Pd.lookup_all k f). Qed.

Lemma composed_has_table_cols k :
  k ∈ table_cols -> Pd.in_columns k (frame_of ids) = true.
Proof.
  unfold table_cols. rewrite !elem_of_cons, elem_of_nil.
  intros [->|[->|[->|[->|[->|[]]]]]]; apply in_columns_nonempty.
  - rewrite lookup_composed_bug_id. rewrite in_columns_lookup_all in Hbug.
    by destruct (Pd.lookup_all "Bug ID" ids).
  - by rewrite lookup_composed_details.
  - apply lookup_composed_category.
  - apply lookup_composed_logic_level.
  - apply lookup_composed_confidence.
Qed.

(** The pie chart of the composed frame. *)
Lemma pie_chart_ok bt :
  Pd.lookup_all "bug_type" df = [bt] ->
  pie_chart (frame_of ids) =
    ([st_markdown "### 🥧 Pie Chart – Bug Origin by Type";
      st_pyplot_pie (SeriesCounts (Pd.count_values Pd.cell_eqb Pd.isnull (Pd.select_rows mask bt)))],
     inr tt).
Proof.
  intros Hbt. unfold pie_chart.
  assert (H : Pd.lookup_all "bug_type" (frame_of ids) = [Pd.select_rows mask bt]).
  { rewrite lookup_composed_input by decide_list. by rewrite Hbt. }
  rewrite bind_emit, (getitem_unique _ _ _ H), bind_lift_inr. reflexivity.
Qed.

(** The bar chart of the composed frame. *)
Lemma bar_chart_ok bt li :
  Pd.lookup_all "bug_type" df = [bt] ->
  Pd.lookup_all "Logical_Issue" df = [li] ->
  bar_chart float_repr (frame_of ids) =
    ([st_markdown "### 📊 Bar Chart – Logic-Level Bugs by Category";
      st_bar_chart (SeriesCounts (Pd.count_values Pd.cell_eqb Pd.isnull
        (Pd.select_rows (map (flagged float_repr) (Pd.select_rows mask li))
           (Pd.select_rows mask bt))))],
     inr tt).
Proof.
  intros Hbt Hli. unfold bar_chart.
  assert (H1 : Pd.lookup_all "bug_type" (frame_of ids) = [Pd.select_rows mask bt]).
  { rewrite lookup_composed_input by decide_list. by rewrite Hbt. }
  assert (H2 : Pd.lookup_all "Logical_Issue" (frame_of ids) = [Pd.select_rows mask li]).
  { rewrite lookup_composed_input by decide_list. by rewrite Hli. }
  rewrite bind_emit, (getitem_unique _ _ _ H2), bind_lift_inr.
  unfold str_lower_eq. simpl astype_str. cbv iota beta. rewrite map_map.
  rewrite bind_lift_inr.
  match goal with
  | |- context [Pd.getitem "bug_type" (Pd.df_mask ?m ?f)] =>
      assert (H3 : Pd.lookup_all "bug_type" (Pd.df_mask m f) = [Pd.select_rows m (Pd.select_rows mask bt)])
        by (by rewrite lookup_all_df_mask, H1)
  end.
  rewrite (getitem_unique _ _ _ H3), bind_lift_inr. reflexivity.
Qed.

End Frame.

(** Lines 35-101 on a table whose [Details], [bug_type] and [Logical_Issue]
    labels are not repeated, with a classifier that answers once per
    document. *)
Lemma process_ok bt li :
  Pd.lookup_all "bug_type" df = [bt] ->
  Pd.lookup_all "Logical_Issue" df = [li] ->
  exists ids t,
    derive_bug_id (details_kept float_repr df d) = inr ids /\
    Pd.select table_cols (frame_of ids) = inr t /\
    len t = length kept /\ well_formed t /\
    (forall k, k ∈ table_cols -> Pd.lookup_all k t = Pd.lookup_all k (frame_of ids)) /\
    (forall k, k <> "S.No" -> k <> "Bug ID" ->
       Pd.lookup_all k ids = Pd.lookup_all k (details_kept float_repr df d)) /\
    process float_repr load_model df =
      (calls_before_table df
         (SeriesCounts (Pd.count_values Pd.cell_eqb Pd.isnull (Pd.select_rows mask bt)))
         (SeriesCounts (Pd.count_values Pd.cell_eqb Pd.isnull
            (Pd.select_rows (map (flagged float_repr) (Pd.select_rows mask li))
               (Pd.select_rows mask bt))))
       ++ [st_dataframe t],
       inr tt).
Proof.
  intros Hbt Hli.
  destruct (compose_ok float_repr load_model df d preds probs Hwf Hd Hcl Hp Hq)
    as (ids & Hids & Hcomp & Hlen & Hwfi & Hbug & Hsame).
  { rewrite Hli. simpl. lia. }
  fold (frame_of ids) in Hcomp.
  destruct (select_table (frame_of ids) (composed_has_table_cols ids Hbug Hsame))
    as (t & Ht & Hlt & Hwt & Hlook).
  exists ids, t. split; [exact Hids|]. split; [exact Ht|].
  split; [by rewrite Hlt, len_composed|].
  split; [by apply Hwt, well_formed_composed|].
  split; [exact Hlook|]. split; [exact Hsame|].
  unfold process. rewrite bind_emit, (in_columns_unique _ _ _ Hd). simpl negb. cbv iota.
  rewrite Hcomp, bind_lift_inr.
  rewrite (pie_chart_ok ids Hsame bt Hbt), bind_value.
  rewrite (bar_chart_ok ids Hsame bt li Hbt Hli), bind_value.
  unfold result_table. rewrite bind_emit, Ht, bind_lift_inr. reflexivity.
Qed.

End Run.

(** * Labels the script leaves alone *)

Lemma columns_assign_each k cs (l : list (string * list cell)) :
  map fst (Pd.assign_each k cs l) = map fst l.
Proof.
  revert cs. induction l as [|[k0 c] l IH]; intros cs; simpl; [reflexivity|].
  destruct (String.eqb_spec k0 k) as [->|Hne].
  - destruct cs as [|v cs]; simpl; [reflexivity|]. by rewrite IH.
  - simpl. by rewrite IH.
Qed.

Lemma setitem_sel_in_columns k sel df df' k' :
  Pd.setitem_sel k sel df = inr df' -> k' <> k ->
  Pd.in_columns k' df' = Pd.in_columns k' df.
Proof.
  intros H Hne. destruct sel as [vals|k0 cs]; simpl in H.
  - injection H as <-. by apply in_columns_assign_ne.
  - destruct (Pd.in_columns k df); [|discriminate].
    destruct (_ =? _)%nat; [|discriminate]. injection H as <-.
    unfold Pd.in_columns, columns. simpl. by rewrite columns_assign_each.
Qed.

Lemma setitem_in_columns k vals df df' k' :
  Pd.setitem k vals df = inr df' -> k' <> k ->
  Pd.in_columns k' df' = Pd.in_columns k' df.
Proof.
  unfold Pd.setitem. intros H Hne.
  destruct (_ =? _)%nat; [|discriminate]. injection H as <-.
  by apply in_columns_assign_ne.
Qed.

Lemma dropna_in_columns k df df' k' :
  Pd.dropna k df = inr df' -> Pd.in_columns k' df' = Pd.in_columns k' df.
Proof.
  unfold Pd.dropna. intros H.
  destruct (Pd.lookup_all k df); [discriminate|]. injection H as <-.
  apply in_columns_df_mask.
Qed.

Section Untouched.

Context (float_repr : Q -> string).
Context (load_model : Exn + Classifier).

Lemma drop_null_details_in_columns df df' k :
  drop_null_details float_repr df = inr df' -> k <> "Details" ->
  Pd.in_columns k df' = Pd.in_columns k df.
Proof.
  unfold drop_null_details. intros H Hk.
  destruct (Pd.dropna "Details" df) as [e|df0] eqn:E0; simpl in H; [discriminate|].
  destruct (Pd.getitem "Details" df0) as [e|sel]; simpl in H; [discriminate|].
  rewrite (setitem_sel_in_columns _ _ _ _ k H Hk).
  by apply (dropna_in_columns "Details").
Qed.

Lemma derive_bug_id_in_columns df df' k :
  derive_bug_id df = inr df' -> k <> "S.No" -> k <> "Bug ID" ->
  Pd.in_columns k df' = Pd.in_columns k df.
Proof.
  intros H H1 H2.
  destruct (derive_bug_id_spec df) as (df'' & Hd & _ & _ & _ & Hsame).
  rewrite Hd in H. injection H as <-.
  rewrite !in_columns_lookup_all. by rewrite Hsame.
Qed.

Lemma add_predictions_in_columns df df' k :
  add_predictions float_repr load_model df = inr df' ->
  k <> "Predicted Category" -> k <> "Confidence Score" ->
  Pd.in_columns k df' = Pd.in_columns k df.
Proof.
  unfold add_predictions. intros H H1 H2.
  destruct (Pd.getitem "Details" df) as [e|sel]; simpl in H; [discriminate|].
  destruct (classify load_model (documents float_repr sel)) as [e|[preds probs]];
    simpl in H; [discriminate|].
  destruct (Pd.setitem "Predicted Category" _ df) as [e|df1] eqn:E1; simpl in H; [discriminate|].
  rewrite (setitem_in_columns _ _ _ _ k H H2).
  by apply (setitem_in_columns _ _ _ _ k E1).
Qed.

Lemma add_logic_level_in_columns df df' k :
  add_logic_level df = inr df' -> k <> "Logic-level Issue" ->
  Pd.in_columns k df' = Pd.in_columns k df.
Proof.
  unfold add_logic_level. intros H Hk.
  destruct (Pd.in_columns "Logical_Issue" df).
  - destruct (Pd.getitem "Logical_Issue" df) as [e|sel]; simpl in H; [discriminate|].
    by apply (setitem_sel_in_columns _ _ _ _ k H).
  - injection H as <-. by apply in_columns_assign_ne.
Qed.

(** Lines 40-68 neither add nor remove a column of another label. *)
Lemma compose_in_columns df F k :
  compose float_repr load_model df = inr F ->
  k ∉ ["Details"; "S.No"; "Bug ID"; "Predicted Category"; "Confidence Score"; "Logic-level Issue"] ->
  Pd.in_columns k F = Pd.in_columns k df.
Proof.
  unfold compose. intros H Hk.
  assert (Hne : forall k', k' ∈ ["Details"; "S.No"; "Bug ID"; "Predicted Category";
                                 "Confidence Score"; "Logic-level Issue"] -> k <> k').
  { intros k' Hk' ->. by apply Hk. }
  destruct (drop_null_details float_repr df) as [e|df1] eqn:E1; simpl in H; [discriminate|].
  destruct (derive_bug_id df1) as [e|df2] eqn:E2; simpl in H; [discriminate|].
  destruct (add_predictions float_repr load_model df2) as [e|df3] eqn:E3; simpl in H; [discriminate|].
  rewrite (add_logic_level_in_columns df3 F k H) by (apply Hne; decide_list).
  rewrite (add_predictions_in_columns df2 df3 k E3) by (apply Hne; decide_list).
  rewrite (derive_bug_id_in_columns df1 df2 k E2) by (apply Hne; decide_list).
  apply (drop_null_details_in_columns df df1 k E1). apply Hne; decide_list.
Qed.

(** * Runs that raise *)

(** The charts and the table of a composed frame make no [st.error] call. *)
Lemma report_calls F :
  let run := pie_chart F ≫= (fun _ => bar_chart float_repr F ≫= (fun _ => result_table F)) in
  List.filter is_error (fst run) = [] /\
  (forall e, snd run = inl e -> List.filter is_table (fst run) = []).
Proof.
  unfold pie_chart, bar_chart, result_table.
  destruct (Pd.getitem "bug_type" F) as [e|bt]; simpl; [by split|].
  destruct (Pd.value_counts bt) as [e|c]; simpl; [by split|].
  destruct (Pd.getitem "Logical_Issue" F) as [e|li]; simpl; [by split|].
  destruct (str_lower_eq float_repr li "yes") as [e|m]; simpl; [by split|].
  destruct (Pd.getitem "bug_type" (Pd.df_mask m F)) as [e|bt']; simpl; [by split|].
  destruct (Pd.value_counts bt') as [e|c']; simpl; [by split|].
  destruct (Pd.select table_cols F) as [e|t]; simpl; by split.
Qed.

Lemma process_raised df out e :
  process float_repr load_model df = (out, inl e) ->
  List.filter is_error out = [] /\ List.filter is_table out = [].
Proof.
  unfold process. rewrite bind_emit.
  destruct (Pd.in_columns "Details" df); simpl negb; cbv iota; [|discriminate].
  destruct (compose float_repr load_model df) as [e'|F].
  - rewrite bind_lift_inl. simpl. intros H. injection H as <- <-. by split.
  - rewrite bind_lift_inr. pose proof (report_calls F) as [H1 H2]. cbv zeta in H1, H2.
    intros H. injection H as <- Hs. simpl. split; [exact H1 | by apply (H2 e)].
Qed.

(** Without [bug_type] or without [Logical_Issue] the run raises. *)
Lemma process_missing_aggregate_column df :
  Pd.in_columns "Details" df = true ->
  Pd.in_columns "bug_type" df = false \/ Pd.in_columns "Logical_Issue" df = false ->
  exists out e, process float_repr load_model df = (out, inl e).
Proof.
  intros Hd Hmiss. unfold process. rewrite bind_emit, Hd. simpl negb. cbv iota.
  destruct (compose float_repr load_model df) as [e'|F] eqn:HF.
  - rewrite bind_lift_inl. by eexists _, _.
  - rewrite bind_lift_inr.
    assert (HF' : Pd.in_columns "bug_type" F = false \/ Pd.in_columns "Logical_Issue" F = false).
    { destruct Hmiss as [H|H]; [left|right];
        rewrite (compose_in_columns df F _ HF) by decide_list; exact H. }
    unfold pie_chart, bar_chart.
    destruct (Pd.getitem "bug_type" F) as [e|bt] eqn:Eb; simpl; [by eexists _, _|].
    destruct (Pd.value_counts bt) as [e|c]; simpl; [by eexists _, _|].
    destruct HF' as [H|H].
    + rewrite (getitem_absent _ _ H) in Eb. discriminate.
    + rewrite (getitem_absent _ _ H). simpl. by eexists _, _.
Qed.

(** Without [bug_type], once lines 40-68 have gone through, line 72 raises
    under the heading of the pie chart. *)
Lemma process_without_bug_type df F :
  Pd.in_columns "Details" df = true ->
  compose float_repr load_model df = inr F ->
  Pd.in_columns "bug_type" df = false ->
  process float_repr load_model df =
    ([ st_write "📋 Columns found in your file:" (columns df);
       st_markdown "### 🥧 Pie Chart – Bug Origin by Type" ],
     inl (KeyError "'bug_type'")).
Proof.
  intros Hd HF Hb. unfold process. rewrite bind_emit, Hd. simpl negb. cbv iota.
  rewrite HF, bind_lift_inr. unfold pie_chart.
  rewrite <- (compose_in_columns df F _ HF) in Hb by decide_list.
  rewrite bind_emit, (getitem_absent _ _ Hb), bind_lift_inl. reflexivity.
Qed.

End Untouched.

(** * Maxima and rounding *)

Lemma Qmax_cases (x y : Q) : Qmax x y = x \/ Qmax x y = y.
Proof. unfold Qmax, GenericMinMax.gmax. destruct (x ?= y)%Q; auto. Qed.

Lemma fold_Qmax_in (l : list Q) (q : Q) : In (fold_left Qmax l q) (q :: l).
Proof.
  revert q. induction l as [|x l IH]; intros q; simpl; [by left|].
  destruct (IH (Qmax q x)) as [H|H].
  - destruct (Qmax_cases q x) as [E|E]; [left | right; left]; congruence.
  - by right; right.
Qed.

Lemma fold_Qmax_ge (l : list Q) (q : Q) :
  (q <= fold_left Qmax l q)%Q /\ Forall (fun p => (p <= fold_left Qmax l q)%Q) l.
Proof.
  revert q. induction l as [|x l IH]; intros q; simpl.
  - split; [apply Qle_refl | constructor].
  - destruct (IH (Qmax q x)) as [H1 H2]. split; [|constructor; [|exact H2]].
    + eapply Qle_trans; [apply Q.le_max_l | exact H1].
    + eapply Qle_trans; [apply Q.le_max_r | exact H1].
Qed.

Lemma max_probability_spec (r : list Q) :
  r <> [] ->
  In (max_probability r) r /\ Forall (fun p => (p <= max_probability r)%Q) r.
Proof.
  destruct r as [|q r]; [done|]. intros _. unfold max_probability. simpl. split.
  - apply fold_Qmax_in.
  - destruct (fold_Qmax_ge r q). by constructor.
Qed.

Lemma max_axis1_ok (pm : list (list Q)) :
  Forall (fun r => r <> []) pm -> max_axis1 pm = inr (map max_probability pm).
Proof.
  induction 1 as [|r pm Hr Hpm IH]; simpl; [reflexivity|].
  rewrite IH. destruct r; [done|]. reflexivity.
Qed.

Lemma round_half_even_near (x : Q) :
  (x - (1 # 2) <= inject_Z (round_half_even x) <= x + (1 # 2))%Q.
Proof.
  unfold round_half_even.
  pose proof (Qfloor_le x) as Hlo. pose proof (Qlt_floor x) as Hhi.
  rewrite inject_Z_plus in Hhi. change (inject_Z 1) with 1%Q in Hhi.
  destruct (Qcompare_spec (x - inject_Z (Qfloor x)) (1 # 2)) as [E|E|E].
  - destruct (Z.even (Qfloor x)); rewrite ?inject_Z_plus; change (inject_Z 1) with 1%Q; lra.
  - lra.
  - rewrite inject_Z_plus. change (inject_Z 1) with 1%Q. lra.
Qed.

Lemma round_half_even_range (x : Q) (n : Z) :
  (0 <= x)%Q -> (x <= inject_Z n)%Q -> (0 <= round_half_even x <= n)%Z.
Proof.
  intros H0 Hn. unfold round_half_even.
  pose proof (Qfloor_le x) as Hlo.
  assert (Hf0 : (0 <= Qfloor x)%Z).
  { change 0%Z with (Qfloor 0). by apply Qfloor_resp_le. }
  assert (Hfn : (Qfloor x <= n)%Z).
  { rewrite <- (Qfloor_Z n). by apply Qfloor_resp_le. }
  assert (Htop : Qfloor x = n -> (x - inject_Z (Qfloor x) ?= 1 # 2)%Q = Lt).
  { intros E. rewrite E. apply (proj1 (Qlt_alt _ _)). lra. }
  destruct (Z.eq_dec (Qfloor x) n) as [E|E].
  - rewrite (Htop E). lia.
  - destruct (x - inject_Z (Qfloor x) ?= 1 # 2)%Q; [destruct (Z.even (Qfloor x))| |]; lia.
Qed.

Lemma pow2_pos (k : Z) : (0 < Float64.pow2 k)%Q.
Proof.
  unfold Float64.pow2. destruct (0 <=? k)%Z eqn:E.
  - apply Z.leb_le in E. change 0%Q with (inject_Z 0). rewrite <- Zlt_Qlt.
    by apply Z.pow_pos_nonneg.
  - reflexivity.
Qed.

(** Below exponent 0 a power of two is the inverse of a whole number. *)
Lemma pow2_neg (k : Z) :
  (k <= 0)%Z -> (Float64.pow2 k * inject_Z (2 ^ (- k)) == 1)%Q.
Proof.
  intros Hk. unfold Float64.pow2. destruct (0 <=? k)%Z eqn:E.
  - apply Z.leb_le in E. assert (k = 0%Z) as -> by lia. reflexivity.
  - assert (Hp : (0 < 2 ^ (- k))%Z) by (apply Z.pow_pos_nonneg; lia).
    unfold Qeq, Qmult, inject_Z. cbn [Qnum Qden].
    rewrite Pos.mul_1_r, Z2Pos.id by exact Hp. lia.
Qed.

Lemma pow2_le (k m : Z) : (k <= - m)%Z -> (0 <= m)%Z ->
  (Float64.pow2 k * inject_Z (2 ^ m) <= 1)%Q.
Proof.
  intros Hk Hm.
  assert (Hk0 : (k <= 0)%Z) by lia.
  pose proof (pow2_neg k Hk0) as E. pose proof (pow2_pos k) as Hpos.
  assert (Hle : (inject_Z (2 ^ m) <= inject_Z (2 ^ (- k)))%Q).
  { rewrite <- Zle_Qle. apply Z.pow_le_mono_r; lia. }
  rewrite <- E. apply Qmult_le_l; [exact Hpos | exact Hle].
Qed.

(** The leading bit of a number up to [b] is not above that of [2 b]. *)
Lemma exponent_le (x : Q) (b : Z) :
  (0 <= x)%Q -> (x <= inject_Z b)%Q -> (0 < b)%Z ->
  (Float64.exponent x <= Z.log2 b + 1)%Z.
Proof.
  intros H0 Hb Hpos. unfold Float64.exponent.
  destruct x as [n d]. cbn [Qnum Qden].
  assert (Hn : (0 <= n)%Z) by (unfold Qle in H0; simpl in H0; lia).
  assert (Hnb : (n <= b * Zpos d)%Z) by (unfold Qle in Hb; simpl in Hb; lia).
  rewrite Z.abs_eq by exact Hn.
  assert (Ha : (Z.log2 n - Z.log2 (Zpos d) <= Z.log2 b + 1)%Z).
  { pose proof (Z.log2_le_mono _ _ Hnb) as H1.
    pose proof (Z.log2_mul_above b (Zpos d) ltac:(lia) ltac:(lia)) as H2. lia. }
  destruct (Qle_bool _ _); lia.
Qed.

Lemma ulp_exponent_le (x : Q) (b : Z) :
  (0 <= x)%Q -> (x <= inject_Z b)%Q -> (0 < b)%Z ->
  (Float64.ulp_exponent x <= Z.max (Z.log2 b - 51) (-1074))%Z.
Proof.
  intros H0 Hb Hpos. unfold Float64.ulp_exponent.
  pose proof (exponent_le x b H0 Hb Hpos). lia.
Qed.

Lemma nearest_eq (x : Q) :
  (Float64.nearest x ==
   inject_Z (round_half_even (x / Float64.pow2 (Float64.ulp_exponent x)))
   * Float64.pow2 (Float64.ulp_exponent x))%Q.
Proof. unfold Float64.nearest. apply Qred_correct. Qed.

(** Rounding to binary64 moves a number by at most half a unit in the last
    place. *)
Lemma nearest_near (x : Q) :
  (x - Float64.pow2 (Float64.ulp_exponent x) * (1 # 2) <= Float64.nearest x
   <= x + Float64.pow2 (Float64.ulp_exponent x) * (1 # 2))%Q.
Proof.
  rewrite nearest_eq.
  set (u := Float64.pow2 (Float64.ulp_exponent x)).
  assert (Hu : (0 < u)%Q) by apply pow2_pos.
  pose proof (round_half_even_near (x / u)) as [H1 H2].
  set (r := inject_Z (round_half_even (x / u))) in *.
  assert (E : (x / u * u == x)%Q) by (field; lra).
  assert (H1' : ((x / u - (1 # 2)) * u <= r * u)%Q)
    by (apply Qmult_le_compat_r; [exact H1 | lra]).
  assert (H2' : (r * u <= (x / u + (1 # 2)) * u)%Q)
    by (apply Qmult_le_compat_r; [exact H2 | lra]).
  set (y := (x / u)%Q) in *. split; lra.
Qed.

(** Rounding to binary64 does not cross a whole number, as long as the last
    place is not above the units. *)
Lemma nearest_range (x : Q) (b : Z) :
  (0 <= x)%Q -> (x <= inject_Z b)%Q -> (Float64.ulp_exponent x <= 0)%Z ->
  (0 <= Float64.nearest x <= inject_Z b)%Q.
Proof.
  intros H0 Hb Hq. rewrite nearest_eq.
  set (q := Float64.ulp_exponent x) in *.
  set (u := Float64.pow2 q).
  assert (Hu : (0 < u)%Q) by apply pow2_pos.
  pose proof (pow2_neg q Hq) as E. fold u in E.
  set (w := inject_Z (2 ^ (- q))) in *.
  assert (Hw : (0 < w)%Q).
  { unfold w. change 0%Q with (inject_Z 0). rewrite <- Zlt_Qlt.
    apply Z.pow_pos_nonneg; lia. }
  assert (Hscale : forall y : Q, (y / u == y * w)%Q).
  { intros y. field_simplify_eq; [|lra]. rewrite <- (Qmult_1_r y) at 1.
    rewrite <- E. ring. }
  destruct (round_half_even_range (x / u) (b * 2 ^ (- q))) as [Hlo Hhi].
  - rewrite Hscale. apply Qmult_le_0_compat; lra.
  - rewrite Hscale, inject_Z_mult. fold w. apply Qmult_le_compat_r; lra.
  - set (r := inject_Z (round_half_even (x / u))).
    assert (Hr0 : (0 <= r)%Q).
    { unfold r. change 0%Q with (inject_Z 0). by rewrite <- Zle_Qle. }
    assert (Hrb : (r <= inject_Z b * w)%Q).
    { unfold r, w. rewrite <- inject_Z_mult, <- Zle_Qle. exact Hhi. }
    split.
    + apply Qmult_le_0_compat; lra.
    + assert (H : (r * u <= inject_Z b * w * u)%Q)
        by (apply Qmult_le_compat_r; [exact Hrb | lra]).
      assert (E' : (inject_Z b * w * u == inject_Z b)%Q).
      { rewrite <- Qmult_assoc, (Qmult_comm w u), E. ring. }
      lra.
Qed.

Lemma half_ulp_le (x : Q) (m : Z) :
  (Float64.ulp_exponent x <= - m)%Z -> (0 <= m)%Z ->
  (Float64.pow2 (Float64.ulp_exponent x) * (1 # 2) <= (1 # 2) / inject_Z (2 ^ m))%Q.
Proof.
  intros Hq Hm.
  pose proof (pow2_le _ m Hq Hm) as H.
  pose proof (pow2_pos (Float64.ulp_exponent x)) as Hu.
  assert (Hw : (0 < inject_Z (2 ^ m))%Q).
  { change 0%Q with (inject_Z 0). rewrite <- Zlt_Qlt. by apply Z.pow_pos_nonneg. }
  apply Qle_shift_div_l; [exact Hw|].
  set (u := Float64.pow2 (Float64.ulp_exponent x)) in *.
  set (w := inject_Z (2 ^ m)) in *.
  assert (E : (u * (1 # 2) * w == (1 # 2) * (u * w))%Q) by ring.
  lra.
Qed.

(** [round(p, 2)] of a probability: the float64 nearest to [n / 100] for a
    whole [n] between 0 and 100 that is within a half, and the rounding of
    the product, of [100 p]; it lies between 0 and 1. *)
Lemma round2_probability (p : Q) :
  (0 <= p <= 1)%Q ->
  exists n : Z,
    (0 <= n <= 100)%Z /\
    round2 p = Float64.nearest (inject_Z n / 100) /\
    (p * 100 - (1 # 2) - (1 # 70368744177664) <= inject_Z n
     <= p * 100 + (1 # 2) + (1 # 70368744177664))%Q /\
    (inject_Z n / 100 - (1 # 4503599627370496) <= round2 p
     <= inject_Z n / 100 + (1 # 4503599627370496))%Q /\
    (0 <= round2 p <= 1)%Q /\
    (p - (1 # 200) - (1 # 1000000000000000) <= round2 p
     <= p + (1 # 200) + (1 # 1000000000000000))%Q.
Proof.
  intros [H0 H1].
  assert (Hx0 : (0 <= p * 100)%Q) by lra.
  assert (Hx1 : (p * 100 <= inject_Z 100)%Q) by (change (inject_Z 100) with 100%Q; lra).
  pose proof (ulp_exponent_le _ 100 Hx0 Hx1 eq_refl) as Hq1.
  change (Z.max (Z.log2 100 - 51) (-1074)) with (-45)%Z in Hq1.
  destruct (nearest_range _ 100 Hx0 Hx1 ltac:(lia)) as [Ha Hb].
  pose proof (nearest_near (p * 100)) as [Hn1 Hn2].
  pose proof (half_ulp_le (p * 100) 45 Hq1 ltac:(lia)) as Hu1.
  change ((1 # 2) / inject_Z (2 ^ 45))%Q with (1 # 70368744177664)%Q in Hu1.
  set (x1 := Float64.nearest (p * 100)) in *.
  destruct (round_half_even_range x1 100 Ha Hb) as [Hr0 Hr1].
  pose proof (round_half_even_near x1) as [Hr2 Hr3].
  set (n := round_half_even x1) in *.
  assert (Hn0 : (0 <= inject_Z n)%Q).
  { change 0%Q with (inject_Z 0). by rewrite <- Zle_Qle. }
  assert (Hn100 : (inject_Z n <= 100)%Q).
  { change 100%Q with (inject_Z 100). by rewrite <- Zle_Qle. }
  assert (Hy0 : (0 <= inject_Z n / 100)%Q).
  { apply Qle_shift_div_l; [reflexivity|]. lra. }
  assert (Hy1 : (inject_Z n / 100 <= inject_Z 1)%Q).
  { apply Qle_shift_div_r; [reflexivity|]. change (inject_Z 1) with 1%Q. lra. }
  pose proof (ulp_exponent_le _ 1 Hy0 Hy1 eq_refl) as Hq2.
  change (Z.max (Z.log2 1 - 51) (-1074)) with (-51)%Z in Hq2.
  destruct (nearest_range _ 1 Hy0 Hy1 ltac:(lia)) as [Hc Hd].
  pose proof (nearest_near (inject_Z n / 100)) as [Hm1 Hm2].
  pose proof (half_ulp_le (inject_Z n / 100) 51 Hq2 ltac:(lia)) as Hu2.
  change ((1 # 2) / inject_Z (2 ^ 51))%Q with (1 # 4503599627370496)%Q in Hu2.
  exists n. split; [lia|]. split; [reflexivity|].
  unfold round2. fold x1. fold n.
  change (inject_Z 1) with 1%Q in Hd.
  assert (Ey : (inject_Z n / 100 * 100 == inject_Z n)%Q) by (field; discriminate).
  set (y := (inject_Z n / 100)%Q) in *.
  repeat split; lra.
Qed.

(** Away from a tie, the whole number of hundredths is the nearest one. *)
Lemma nearest_whole (x : Q) (n m : Z) (eps : Q) :
  (x - (1 # 2) - eps <= inject_Z n <= x + (1 # 2) + eps)%Q ->
  (inject_Z m - (1 # 2) + eps < x < inject_Z m + (1 # 2) - eps)%Q ->
  n = m.
Proof.
  intros [H1 H2] [H3 H4].
  assert (Hlt : (inject_Z n < inject_Z (m + 1))%Q).
  { rewrite inject_Z_plus. change (inject_Z 1) with 1%Q. lra. }
  assert (Hgt : (inject_Z (m - 1) < inject_Z n)%Q).
  { assert (E : (inject_Z (m - 1) == inject_Z m - 1)%Q).
    { unfold Qeq, Qminus, Qplus, Qopp, inject_Z. cbn [Qnum Qden]. lia. }
    lra. }
  rewrite <- Zlt_Qlt in Hlt, Hgt. lia.
Qed.

(** * Dropping the null rows twice *)

Lemma filter_twice {A} (f : A -> bool) (l : list A) :
  List.filter f (List.filter f l) = List.filter f l.
Proof.
  induction l as [|x l IH]; simpl; [reflexivity|].
  destruct (f x) eqn:E; simpl; rewrite ?E, IH; reflexivity.
Qed.

Lemma df_mask_twice df d :
  well_formed df -> length d = len df ->
  Pd.df_mask (map Pd.notnull (List.filter Pd.notnull d)) (Pd.df_mask (map Pd.notnull d) df) =
  Pd.df_mask (map Pd.notnull d) df.
Proof.
  intros Hwf Hlen. unfold Pd.df_mask. simpl. f_equal.
  - rewrite filter_all_length by apply forallb_map_filter.
    by rewrite length_map, length_filter_map.
  - rewrite map_map. simpl. apply map_ext_in. intros [k c] Hc. simpl. f_equal.
    apply select_rows_all; [|apply forallb_map_filter].
    rewrite length_map, <- (length_filter_map Pd.notnull d).
    apply length_select_rows. rewrite length_map, Hlen.
    unfold well_formed in Hwf. rewrite Forall_forall in Hwf.
    apply (Hwf (k, c)). by apply list_elem_of_In.
Qed.

Lemma process_without_null_details float_repr load_model df d :
  well_formed df -> Pd.lookup_all "Details" df = [d] ->
  process float_repr load_model (Pd.df_mask (map Pd.notnull d) df) =
  process float_repr load_model df.
Proof.
  intros Hwf Hd.
  assert (Hlen : length d = len df) by (by apply (length_d df d)).
  assert (Hd' : Pd.lookup_all "Details" (Pd.df_mask (map Pd.notnull d) df) =
                [List.filter Pd.notnull d]).
  { by rewrite lookup_all_df_mask, Hd; simpl; rewrite select_rows_self. }
  assert (Hwf' : well_formed (Pd.df_mask (map Pd.notnull d) df)).
  { apply well_formed_df_mask; [exact Hwf|]. by rewrite length_map. }
  unfold process, compose.
  rewrite columns_df_mask, in_columns_df_mask.
  rewrite (drop_null_details_ok float_repr _ _ Hwf' Hd').
  rewrite (drop_null_details_ok float_repr _ _ Hwf Hd).
  by rewrite filter_twice, df_mask_twice.
Qed.

(** * The identifier column *)

Lemma in_columns_sno_renamed df :
  Pd.in_columns "S.No" (Pd.rename "S.No" "Bug ID" df) = false.
Proof.
  apply in_columns_false. unfold Pd.lookup_all, Pd.rename. simpl.
  induction (cols df) as [|[k0 c] l IH]; simpl; [reflexivity|].
  destruct (String.eqb_spec k0 "S.No") as [->|Hne]; simpl; [exact IH|].
  destruct (String.eqb_spec k0 "S.No"); [congruence|]. exact IH.
Qed.

Lemma derive_bug_id_twice df df' :
  derive_bug_id df = inr df' -> derive_bug_id df' = inr df'.
Proof.
  unfold derive_bug_id at 1.
  destruct (Pd.in_columns "S.No" df) eqn:Hs; [|destruct (Pd.in_columns "Bug ID" df) eqn:Hb];
    simpl; intros H.
  - injection H as <-. unfold derive_bug_id.
    by rewrite in_columns_sno_renamed, (in_columns_rename _ _ _ Hs).
  - injection H as <-. unfold derive_bug_id. by rewrite Hs, Hb.
  - unfold Pd.setitem in H. destruct (_ =? _)%nat; [|discriminate]. injection H as <-.
    unfold derive_bug_id.
    rewrite in_columns_assign_ne by discriminate. rewrite Hs, in_columns_assign_eq. reflexivity.
Qed.

Lemma lookup_renamed a b df :
  Pd.lookup_all b (Pd.rename a b df) = lookup_either a b df.
Proof. apply lookup_either_rename. Qed.

Lemma lookup_either_df_mask a b m df :
  lookup_either a b (Pd.df_mask m df) = map (Pd.select_rows m) (lookup_either a b df).
Proof.
  unfold lookup_either, Pd.df_mask. simpl.
  induction (cols df) as [|[k0 c] l IH]; simpl; [reflexivity|].
  destruct (String.eqb k0 a || String.eqb k0 b); simpl; by rewrite IH.
Qed.

Lemma lookup_either_assign_ne a b k v df :
  k <> a -> k <> b -> lookup_either a b (Pd.assign k v df) = lookup_either a b df.
Proof.
  intros Ha Hb. unfold lookup_either, Pd.assign.
  destruct (Pd.in_columns k df); simpl.
  - induction (cols df) as [|[k0 c] l IH]; simpl; [reflexivity|].
    destruct (String.eqb_spec k0 k) as [->|Hne]; simpl.
    + destruct (String.eqb_spec k a); [congruence|].
      destruct (String.eqb_spec k b); [congruence|]. exact IH.
    + destruct (String.eqb k0 a || String.eqb k0 b); simpl; by rewrite IH.
  - rewrite List.filter_app, map_app. simpl.
    destruct (String.eqb_spec k a); [congruence|].
    destruct (String.eqb_spec k b); [congruence|]. simpl. by rewrite app_nil_r.
Qed.

Lemma lookup_either_one a b (l : list (string * list cell)) :
  map snd (List.filter (fun c => String.eqb (fst c) a) l) = [] ->
  map snd (List.filter (fun c => String.eqb (fst c) a || String.eqb (fst c) b) l) =
  map snd (List.filter (fun c => String.eqb (fst c) b) l).
Proof.
  induction l as [|[k0 c] l IH]; simpl; [reflexivity|].
  destruct (String.eqb k0 a); simpl; [discriminate|].
  destruct (String.eqb k0 b); simpl; intros H; by rewrite IH.
Qed.

Lemma lookup_either_other a b (l : list (string * list cell)) :
  map snd (List.filter (fun c => String.eqb (fst c) b) l) = [] ->
  map snd (List.filter (fun c => String.eqb (fst c) a || String.eqb (fst c) b) l) =
  map snd (List.filter (fun c => String.eqb (fst c) a) l).
Proof.
  induction l as [|[k0 c] l IH]; simpl; [reflexivity|].
  destruct (String.eqb k0 b); simpl; [discriminate|].
  rewrite orb_false_r.
  destruct (String.eqb k0 a); simpl; intros H; by rewrite IH.
Qed.

(** Two labels that each occur once give two columns, in the order of their
    positions. *)
Lemma lookup_either_two a b df x y :
  a <> b -> Pd.lookup_all a df = [x] -> Pd.lookup_all b df = [y] ->
  lookup_either a b df = [x; y] \/ lookup_either a b df = [y; x].
Proof.
  unfold Pd.lookup_all, lookup_either. intros Hab.
  induction (cols df) as [|[k0 c] l IH]; simpl; [discriminate|].
  destruct (String.eqb_spec k0 a) as [->|Ha]; simpl.
  - destruct (String.eqb_spec a b); [congruence|]. intros Hx Hy.
    injection Hx as -> Hx. left. f_equal.
    rewrite (lookup_either_one a b l Hx). exact Hy.
  - destruct (String.eqb_spec k0 b) as [->|Hb]; simpl.
    + intros Hx Hy. injection Hy as -> Hy. right. f_equal.
      rewrite (lookup_either_other a b l Hy). exact Hx.
    + exact IH.
Qed.

(** * The label table *)


(** * The classifier calls *)

Lemma classify_ok load_model clf docs X preds pm :
  load_model = inr clf -> transform clf docs = inr X ->
  predict clf X = inr preds -> predict_proba clf X = inr pm ->
  Forall (fun r => r <> []) pm ->
  classify load_model docs = inr (preds, map max_probability pm).
Proof.
  intros -> HX Hp Hpm Hrows. unfold classify. simpl.
  rewrite HX. simpl. rewrite Hp. simpl. rewrite Hpm. simpl.
  by rewrite (max_axis1_ok pm Hrows).
Qed.

Lemma filter_notnull_details (rows : list BugRow) :
  List.filter Pd.notnull (map r_details rows) = map r_details (surviving rows).
Proof.
  unfold surviving. induction rows as [|r rows IH]; simpl; [reflexivity|].
  destruct (Pd.notnull (r_details r)); simpl; by rewrite IH.
Qed.

Lemma length_notnull_isnull (d : list cell) :
  length (List.filter Pd.notnull d) = (length d - length (List.filter Pd.isnull d))%nat.
Proof.
  induction d as [|x d IH]; simpl; [reflexivity|].
  pose proof (List.filter_length_le Pd.isnull d).
  pose proof (List.filter_length_le Pd.notnull d).
  unfold Pd.notnull in *. destruct (Pd.isnull x); simpl; lia.
Qed.

(** * The spellings of "yes" *)

Lemma lower_ascii_y (c : ascii) :
  Ascii.eqb (Py.lower_ascii c) "y" = Ascii.eqb c "y" || Ascii.eqb c "Y".
Proof. destruct c as [[] [] [] [] [] [] [] []]; reflexivity. Qed.

Lemma lower_ascii_e (c : ascii) :
  Ascii.eqb (Py.lower_ascii c) "e" = Ascii.eqb c "e" || Ascii.eqb c "E".
Proof. destruct c as [[] [] [] [] [] [] [] []]; reflexivity. Qed.

Lemma lower_ascii_s (c : ascii) :
  Ascii.eqb (Py.lower_ascii c) "s" = Ascii.eqb c "s" || Ascii.eqb c "S".
Proof. destruct c as [[] [] [] [] [] [] [] []]; reflexivity. Qed.

(** A text lowers to "yes" exactly when it is one of the eight spellings. *)
Lemma lower_is_yes (s : string) :
  String.eqb (Py.lower s) "yes" = existsb (String.eqb s) yes_spellings.
Proof.
  destruct s as [|c1 [|c2 [|c3 [|c4 s]]]];
    cbn [Py.lower String.eqb existsb yes_spellings];
    rewrite ?lower_ascii_y, ?lower_ascii_e, ?lower_ascii_s;
    repeat match goal with
           | |- context [Ascii.eqb ?c ?x] => destruct (Ascii.eqb c x)
           end;
    reflexivity.
Qed.

(** The test of line 94 holds for the flags that say yes. *)
Lemma flagged_says_yes float_repr (v : cell) :
  flagged float_repr v = says_yes float_repr v.
Proof. apply lower_is_yes. Qed.

(** * What the sinks take *)

Lemma bump_nonempty x acc : Pd.bump Pd.cell_eqb x acc <> [].
Proof. destruct acc as [|[k n] acc]; simpl; [|destruct (Pd.cell_eqb k x)]; discriminate. Qed.

Lemma drawable_fold (l : list cell) (acc : list (cell * nat)) :
  drawable (SeriesCounts
    (fold_left (fun acc v => if Pd.isnull v then acc else Pd.bump Pd.cell_eqb v acc) l acc)) =
  drawable (SeriesCounts acc) || existsb Pd.notnull l.
Proof.
  revert acc. induction l as [|x l IH]; intros acc; cbn [fold_left existsb].
  - by rewrite orb_false_r.
  - rewrite IH. unfold Pd.notnull. destruct (Pd.isnull x); cbn [negb orb]; [reflexivity|].
    pose proof (bump_nonempty x acc) as H.
    destruct (Pd.bump Pd.cell_eqb x acc); [congruence|]. simpl.
    by rewrite orb_true_r.
Qed.

(** An aggregate has an entry exactly when some value is not missing. *)
Lemma drawable_count_values (l : list cell) :
  drawable (SeriesCounts (Pd.count_values Pd.cell_eqb Pd.isnull l)) = existsb Pd.notnull l.
Proof. unfold Pd.count_values. by rewrite drawable_fold. Qed.

Lemma label_count_lookup_all k df : label_count k df = length (Pd.lookup_all k df).
Proof. unfold label_count, Pd.lookup_all. by rewrite length_map. Qed.

(** Keys that each label one column select those columns under those
    labels. *)
Lemma select_columns_labels keys df cs :
  Pd.select_columns keys df = inr cs ->
  (forall k, k ∈ keys -> label_count k df = 1%nat) ->
  map fst cs = keys.
Proof.
  revert cs. induction keys as [|k keys IH]; intros cs; simpl.
  - intros H _. by injection H as <-.
  - intros H Hone.
    assert (Hk : label_count k df = 1%nat) by (apply Hone; by left).
    unfold label_count in Hk.
    destruct (List.filter (fun c => String.eqb (fst c) k) (cols df)) as [|c0 [|c1 l]] eqn:E;
      try discriminate.
    destruct (Pd.select_columns keys df) as [e|rest]; simpl in H; [discriminate|].
    injection H as <-. simpl. f_equal.
    + assert (Hin : In c0 (List.filter (fun c => String.eqb (fst c) k) (cols df))).
      { rewrite E. by left. }
      apply List.filter_In in Hin as [_ Hc]. by apply String.eqb_eq in Hc.
    + apply IH; [reflexivity|]. intros k' Hk'. apply Hone. by right.
Qed.

(** A label of a displayable table labels at most one column. *)
Lemma distinct_labels_count k (l : list (string * list cell)) :
  distinct_labels (map fst l) = true ->
  (length (List.filter (fun c => String.eqb (fst c) k) l) <= 1)%nat.
Proof.
  induction l as [|[k0 c] l IH]; simpl; [lia|].
  intros H. apply andb_prop in H as [H1 H2]. specialize (IH H2).
  destruct (String.eqb_spec k0 k) as [->|Hne]; [|exact IH].
  simpl. apply negb_true_iff in H1.
  assert (E : List.filter (fun c => String.eqb (fst c) k) l = []).
  { clear IH H2. induction l as [|[k1 c1] l IHl]; simpl in *; [reflexivity|].
    apply orb_false_elim in H1 as [Hk Hl].
    rewrite String.eqb_sym, Hk. by apply IHl. }
  rewrite E. simpl. lia.
Qed.

Lemma repeated_label_not_displayable k t :
  (2 <= label_count k t)%nat -> displayable t = false.
Proof.
  intros H. unfold displayable, columns.
  destruct (distinct_labels (map fst (cols t))) eqn:E; [|reflexivity].
  pose proof (distinct_labels_count k (cols t) E). unfold label_count in H. lia.
Qed.

(** * The labels of the result table *)

Lemma lookup_either_has a b df :
  Pd.lookup_all a df <> [] -> lookup_either a b df <> [].
Proof.
  unfold Pd.lookup_all, lookup_either.
  induction (cols df) as [|[k0 c] l IH]; simpl; [done|].
  destruct (String.eqb k0 a); simpl; [discriminate|].
  destruct (String.eqb k0 b); simpl; [discriminate|]. exact IH.
Qed.

Section Labels.

Context (float_repr : Q -> string).
Context (df : DataFrame) (d : list cell) (preds : Predictions) (probs : list Q).

Hypothesis Hd : Pd.lookup_all "Details" df = [d].

Context (ids : DataFrame).
Hypothesis Hids : derive_bug_id (details_kept float_repr df d) = inr ids.

Lemma derived_same k :
  k <> "S.No" -> k <> "Bug ID" ->
  Pd.lookup_all k ids = Pd.lookup_all k (details_kept float_repr df d).
Proof.
  destruct (derive_bug_id_spec (details_kept float_repr df d)) as (ids' & H & _ & _ & _ & Hsame).
  rewrite Hids in H. injection H as <-. apply Hsame.
Qed.

Lemma derived_has_bug_id : Pd.in_columns "Bug ID" ids = true.
Proof.
  destruct (derive_bug_id_spec (details_kept float_repr df d)) as (ids' & H & _ & _ & Hbug & _).
  rewrite Hids in H. by injection H as <-.
Qed.

(** The [Bug ID] columns of the frame of line 47, from the table. *)
Lemma lookup_bug_id_derived :
  Pd.lookup_all "Bug ID" ids =
    match lookup_either "S.No" "Bug ID" df with
    | [] => [map (fun i => CInt (Z.of_nat i)) (seq 1 (length (List.filter Pd.notnull d)))]
    | cs => map (Pd.select_rows (map Pd.notnull d)) cs
    end.
Proof.
  pose proof (in_columns_details_kept float_repr df d Hd) as Hin.
  pose proof Hids as H. unfold derive_bug_id in H. rewrite !Hin in H.
  assert (Hkept : lookup_either "S.No" "Bug ID" (details_kept float_repr df d) =
                  map (Pd.select_rows (map Pd.notnull d)) (lookup_either "S.No" "Bug ID" df)).
  { unfold details_kept. rewrite lookup_either_assign_ne by discriminate.
    apply lookup_either_df_mask. }
  destruct (Pd.in_columns "S.No" df) eqn:Hs.
  - injection H as <-. rewrite lookup_renamed, Hkept.
    rewrite in_columns_lookup_all in Hs.
    pose proof (lookup_either_has "S.No" "Bug ID" df) as Hne.
    destruct (lookup_either "S.No" "Bug ID" df); [|reflexivity].
    destruct (Pd.lookup_all "S.No" df); [discriminate|]. by destruct Hne.
  - apply in_columns_false in Hs.
    assert (Hone : lookup_either "S.No" "Bug ID" df = Pd.lookup_all "Bug ID" df).
    { apply lookup_either_one. exact Hs. }
    rewrite Hone. destruct (Pd.in_columns "Bug ID" df) eqn:Hb; simpl in H.
    + injection H as <-. rewrite lookup_other_details_kept by discriminate.
      rewrite in_columns_lookup_all in Hb.
      by destruct (Pd.lookup_all "Bug ID" df).
    + unfold Pd.setitem, bug_id_range in H.
      rewrite length_map, length_seq, Nat.eqb_refl in H. injection H as <-.
      rewrite lookup_all_assign_eq, lookup_other_details_kept by discriminate.
      apply in_columns_false in Hb. rewrite Hb. simpl.
      by rewrite len_details_kept.
Qed.

Lemma label_count_stored k v f :
  (label_count k f <= 1)%nat -> label_count k (Pd.assign k v f) = 1%nat.
Proof.
  rewrite !label_count_lookup_all, lookup_all_assign_eq.
  destruct (Pd.lookup_all k f) as [|c [|c' l]]; simpl; lia.
Qed.

Lemma label_count_input k :
  k <> "S.No" -> k <> "Bug ID" -> k <> "Details" ->
  label_count k ids = label_count k df.
Proof.
  intros H1 H2 H3. rewrite !label_count_lookup_all, derived_same by assumption.
  rewrite lookup_other_details_kept by assumption. apply length_map.
Qed.

(** On a table whose result labels are not repeated, every label of the
    result table labels one column of the frame of line 68. *)
Lemma composed_labels_once k :
  result_labels_unique df = true -> k ∈ table_cols ->
  label_count k (composed df d preds probs ids) = 1%nat.
Proof.
  unfold result_labels_unique. intros H.
  apply andb_prop in H as [Hb H]. simpl in H.
  apply andb_prop in H as [Hpc H]. apply andb_prop in H as [Hcs H].
  apply andb_prop in H as [Hli _].
  apply Nat.leb_le in Hb, Hpc, Hcs, Hli.
  unfold table_cols. rewrite !elem_of_cons, elem_of_nil.
  intros [->|[->|[->|[->|[->|[]]]]]]; unfold composed.
  - rewrite !label_count_lookup_all, !lookup_all_assign_ne by discriminate.
    rewrite lookup_bug_id_derived.
    destruct (lookup_either "S.No" "Bug ID" df) as [|c [|c' l]]; simpl in *; lia.
  - rewrite !label_count_lookup_all, !lookup_all_assign_ne by discriminate.
    rewrite derived_same by discriminate.
    by rewrite (lookup_details_kept float_repr df d Hd).
  - rewrite !label_count_lookup_all, !lookup_all_assign_ne by discriminate.
    rewrite <- label_count_lookup_all. apply label_count_stored.
    by rewrite label_count_input.
  - apply label_count_stored.
    rewrite !label_count_lookup_all, !lookup_all_assign_ne by discriminate.
    rewrite <- label_count_lookup_all. by rewrite label_count_input.
  - rewrite !label_count_lookup_all, !lookup_all_assign_ne by discriminate.
    rewrite <- label_count_lookup_all. apply label_count_stored.
    rewrite !label_count_lookup_all, !lookup_all_assign_ne by discriminate.
    rewrite <- label_count_lookup_all. by rewrite label_count_input.
Qed.

(** Then the result table has the five labels of line 100, once each, and
    [st.dataframe] takes it. *)
Lemma table_labels t :
  result_labels_unique df = true ->
  Pd.select table_cols (composed df d preds probs ids) = inr t ->
  columns t = table_cols /\ displayable t = true.
Proof.
  intros Hu Ht. unfold Pd.select in Ht.
  destruct (Pd.select_columns table_cols (composed df d preds probs ids)) as [e|cs] eqn:E;
    simpl in Ht; [discriminate|].
  injection Ht as <-.
  assert (Hc : columns (mkDataFrame (len (composed df d preds probs ids)) cs) = table_cols).
  { unfold columns. simpl. apply (select_columns_labels _ _ _ E).
    intros k Hk. by apply composed_labels_once. }
  split; [exact Hc|]. unfold displayable. rewrite Hc. reflexivity.
Qed.

(** With [S.No] and [Bug ID] both in the table, both end under [Bug ID]. *)
Lemma lookup_bug_id_both sno bid :
  Pd.lookup_all "S.No" df = [sno] -> Pd.lookup_all "Bug ID" df = [bid] ->
  Pd.lookup_all "Bug ID" ids =
    [Pd.select_rows (map Pd.notnull d) sno; Pd.select_rows (map Pd.notnull d) bid] \/
  Pd.lookup_all "Bug ID" ids =
    [Pd.select_rows (map Pd.notnull d) bid; Pd.select_rows (map Pd.notnull d) sno].
Proof.
  intros Hs Hb. rewrite lookup_bug_id_derived.
  destruct (lookup_either_two "S.No" "Bug ID" df sno bid) as [E|E];
    [discriminate | exact Hs | exact Hb | |]; rewrite E; simpl; auto.
Qed.

End Labels.

(** * A run that is shown *)

(** Lines 35-101 on a table that leads to an aggregate with an entry and to a
    result table without a repeated label: both sinks take what they are
    handed. *)
Lemma process_shown float_repr load_model df d preds probs bt li :
  well_formed df ->
  Pd.lookup_all "Details" df = [d] ->
  classify load_model (map (py_str float_repr) (List.filter Pd.notnull d)) = inr (preds, probs) ->
  pred_length preds = length (List.filter Pd.notnull d) ->
  length probs = length (List.filter Pd.notnull d) ->
  Pd.lookup_all "bug_type" df = [bt] ->
  Pd.lookup_all "Logical_Issue" df = [li] ->
  result_labels_unique df = true ->
  pie_has_entry d bt = true ->
  exists ids t,
    derive_bug_id (details_kept float_repr df d) = inr ids /\
    Pd.select table_cols (composed df d preds probs ids) = inr t /\
    columns t = table_cols /\ displayable t = true /\
    drawable (SeriesCounts (Pd.count_values Pd.cell_eqb Pd.isnull
                              (Pd.select_rows (map Pd.notnull d) bt))) = true /\
    process float_repr load_model df =
      (calls_before_table df
         (SeriesCounts (Pd.count_values Pd.cell_eqb Pd.isnull
                          (Pd.select_rows (map Pd.notnull d) bt)))
         (SeriesCounts (Pd.count_values Pd.cell_eqb Pd.isnull
            (Pd.select_rows (map (flagged float_repr) (Pd.select_rows (map Pd.notnull d) li))
               (Pd.select_rows (map Pd.notnull d) bt))))
       ++ [st_dataframe t],
       inr tt).
Proof.
  intros Hwf Hd Hcl Hp Hq Hbt Hli Hu Hpie.
  destruct (process_ok float_repr load_model df d preds probs Hwf Hd Hcl Hp Hq bt li Hbt Hli)
    as (ids & t & Hids & Ht & _ & _ & _ & _ & Hrun).
  destruct (table_labels float_repr df d preds probs Hd ids Hids t Hu Ht) as [Hc Hdisp].
  exists ids, t. repeat split; try assumption.
  by rewrite drawable_count_values.
Qed.

(** * Loading the upload *)

Lemma strip_columns_text df :
  cols df <> [] -> strip_columns df = inr (strip_labels df).
Proof. unfold strip_columns. by destruct (cols df). Qed.

(** A table that is read with a [Details] label is not read a second time;
    its labels are stripped. *)
Lemma load_first_read f df :
  (if Py.endswith (name f) ".csv" then read_csv f else read_excel f 0) = inr df ->
  Pd.in_columns "Details" (strip_labels df) = true ->
  load f = inr (strip_labels df).
Proof.
  intros Hr Hd. unfold load. rewrite Hr. simpl.
  assert (Hc : cols df <> []).
  { intros E. unfold Pd.in_columns, columns, strip_labels in Hd. simpl in Hd.
    rewrite E in Hd. discriminate. }
  rewrite (strip_columns_text df Hc). simpl. by rewrite Hd.
Qed.

(** * Sample runs *)

Example strip_header :
  Py.strip (String (ascii_of_nat 194) (String (ascii_of_nat 160) " Details")
            +:+ String (ascii_of_nat 9) " ") = "Details".
Proof. reflexivity. Qed.

Example lower_flag : Py.lower "YeS" = "yes".
Proof. reflexivity. Qed.

Example flags :
  map (says_yes Sample.toy_repr) [CStr "YES"; CStr "yEs"; CStr "yes "; CStr "y"; CNull; CBool true] =
  [true; true; false; false; false; false].
Proof. reflexivity. Qed.

(** numpy's [round] on the float64 values written 0.815, 0.505 and 0.575:
    the product with 100 is 81.5, 50.5 and 57.49999999999999. *)
Example round2_float64 :
  round2 Sample2.f_0_815 = Sample2.f_0_82 /\
  round2 Sample2.f_0_505 = 1 # 2 /\
  round2 Sample2.f_0_575 = Sample2.f_0_57.
Proof. repeat split; vm_compute; reflexivity. Qed.

Example round2_whole : round2 0 = 0%Q /\ round2 1 = 1%Q /\ round2 (1 # 4) = 1 # 4.
Proof. repeat split; vm_compute; reflexivity. Qed.

Example nearest_tenth : Float64.nearest (1 # 10) = 3602879701896397 # 36028797018963968.
Proof. vm_compute. reflexivity. Qed.

Example three_rows_run :
  process Sample.toy_repr (inr Sample.toy) Sample.three_rows =
    (calls_before_table Sample.three_rows
       (SeriesCounts [(CStr "Server", 2%nat); (CStr "UI", 1%nat)])
       (SeriesCounts [(CStr "Server", 2%nat)])
     ++ [st_dataframe
           (mkDataFrame 3
              [ ("Bug ID", [CInt 1; CInt 2; CInt 3]);
                ("Details", Sample.three_details);
                ("Predicted Category", [CStr "Server"; CStr "UI"; CStr "Server"]);
                ("Logic-level Issue", [CStr "yes"; CStr "no"; CStr "yes"]);
                ("Confidence Score",
                 [CFloat Sample2.f_0_82; CFloat Sample2.f_0_67; CFloat Sample2.f_0_82]) ])],
     inr tt).
Proof. vm_compute. reflexivity. Qed.

Example with_ids_run :
  process Sample.toy_repr (inr Sample2.toy64) Sample2.with_ids =
    (calls_before_table Sample2.with_ids
       (SeriesCounts [(CStr "Server", 2%nat); (CStr "UI", 1%nat)])
       (SeriesCounts [(CStr "Server", 2%nat)])
     ++ [st_dataframe
           (mkDataFrame 3
              [ ("Bug ID", [CInt 7; CInt 9; CInt 10]);
                ("Details", [CStr "crash on login"; CStr "label cut off"; CStr "timeout"]);
                ("Predicted Category", [CStr "Server"; CStr "UI"; CStr "Server"]);
                ("Logic-level Issue", [CStr "YES"; CStr "No"; CStr "Yes"]);
                ("Confidence Score", [CFloat Sample2.f_0_82; CFloat (1 # 2); CFloat Sample2.f_0_82]) ])],
     inr tt).
Proof. vm_compute. reflexivity. Qed.

Example labels_run :
  (t ← shown_table (fst (process Sample.toy_repr (inr Sample.toy_labels) Sample.three_rows));
   Some (Pd.lookup_all "Predicted Category" t)) =
  Some [[CStr "Backend"; CStr "Frontend"; CStr "Frontend"]].
Proof. vm_compute. reflexivity. Qed.

Example five_rows_counts :
  rows_of_type (CStr "UI") (surviving Sample.five_bug_rows) = 1%nat /\
  rows_of_type (CStr "Server")
    (List.filter (fun r => says_yes Sample.toy_repr (r_logical_issue r))
       (surviving Sample.five_bug_rows)) = 2%nat.
Proof. split; reflexivity. Qed.

(** A table with [S.No] and [Bug ID] leads to a result table that
    [st.dataframe] does not take. *)
Example five_rows_table :
  (F ← compose Sample.toy_repr (inr Sample.toy) Sample.five_rows;
   t ← Pd.select table_cols F;
   mret (columns t, displayable t)) =
  inr (["Bug ID"; "Bug ID"; "Details"; "Predicted Category"; "Logic-level Issue";
        "Confidence Score"], false).
Proof. vm_compute. reflexivity. Qed.

(** A workbook without a [Details] label in its first and in its third row:
    line 38 is reached. *)
Example xlsx_without_details_run :
  app Sample.toy_repr (inr Sample.toy) (Some Sample.xlsx_without_details) =
    [ st_write "📋 Columns found in your file:" ["typo"; "UI"];
      st_error missing_details_message ].
Proof. vm_compute. reflexivity. Qed.

(** A workbook that has no third row: the retry reads the empty frame, line
    33 raises an [AttributeError], and line 38 is not reached. *)
Example xlsx_one_row_run :
  exists msg,
    load Sample.xlsx_one_row = inl (AttributeError msg) /\
    app Sample.toy_repr (inr Sample.toy) (Some Sample.xlsx_one_row) =
      [ st_error ("❌ Error: " +:+ msg) ].
Proof. eexists. split; reflexivity. Qed.

(** A repeated [bug_type] label: line 72 raises in the grouper. *)
Example repeated_bug_type :
  exists msg,
    Pd.value_counts (Pd.SubFrame "bug_type" [[CStr "UI"]; [CStr "UI"]]) =
    inl (ValueError msg).
Proof. eexists. reflexivity. Qed.

(** * The claims *)

(** C1, on the code: for a comma-separated upload without a [Details] column
    the retry of line 32 reads the file as a workbook, openpyxl raises, and
    the run ends with the handler's generic message; the missing-column error
    of line 38 is never reported. *)
Theorem C1_csv_without_details_gets_generic_error :
  load (Sample.csv_without_details) = inl (OtherError "File is not a zip file") /\
  app Sample.toy_repr (inr Sample.toy) (Some Sample.csv_without_details) =
    [st_error "❌ Error: File is not a zip file"] /\
  ~ In (st_error missing_details_message)
      (app Sample.toy_repr (inr Sample.toy) (Some Sample.csv_without_details)).
Proof.
  split; [reflexivity|]. split; [reflexivity|].
  intros [H|[]]. discriminate.
Qed.

(** The retry of line 32 on a comma-separated upload, in general. *)
Lemma csv_retry_raises float_repr load_model f df e :
  Py.endswith (name f) ".csv" = true -> read_csv f = inr df ->
  cols df <> [] ->
  Pd.in_columns "Details" (strip_labels df) = false ->
  read_excel f 2 = inl e ->
  app float_repr load_model (Some f) = [st_error ("❌ Error: " +:+ exn_str e)].
Proof.
  intros Hn Hcsv Hc Hdet Hx. unfold app, body, load.
  rewrite Hn, Hcsv. simpl. rewrite (strip_columns_text df Hc). simpl.
  rewrite Hdet. simpl. rewrite Hx. reflexivity.
Qed.

(** When both reads succeed with text in their headers and neither has a
    [Details] label, line 38 is reached: the columns are listed, the
    missing-column error is shown and nothing else is. *)
Lemma missing_details_reported float_repr load_model f df1 df2 :
  (if Py.endswith (name f) ".csv" then read_csv f else read_excel f 0) = inr df1 ->
  cols df1 <> [] ->
  Pd.in_columns "Details" (strip_labels df1) = false ->
  read_excel f 2 = inr df2 ->
  cols df2 <> [] ->
  Pd.in_columns "Details" (strip_labels df2) = false ->
  app float_repr load_model (Some f) =
    [st_write "📋 Columns found in your file:" (columns (strip_labels df2));
     st_error "❌ The uploaded file must contain a 'Details' column."].
Proof.
  intros H1 Hc1 Hd1 H2 Hc2 Hd2. unfold app, body, load.
  rewrite H1. simpl. rewrite (strip_columns_text df1 Hc1). simpl.
  rewrite Hd1. simpl. rewrite H2. simpl. rewrite (strip_columns_text df2 Hc2).
  unfold process. simpl. rewrite Hd2. reflexivity.
Qed.

(** When the retry reads the empty frame, line 33 raises and line 38 is not
    reached. *)
Lemma retry_reads_empty_frame float_repr load_model f df1 df2 :
  (if Py.endswith (name f) ".csv" then read_csv f else read_excel f 0) = inr df1 ->
  cols df1 <> [] ->
  Pd.in_columns "Details" (strip_labels df1) = false ->
  read_excel f 2 = inr df2 ->
  cols df2 = [] ->
  exists msg,
    load f = inl (AttributeError msg) /\
    app float_repr load_model (Some f) = [st_error ("❌ Error: " +:+ msg)].
Proof.
  intros H1 Hc1 Hd1 H2 Hc2. eexists. unfold app, body, load.
  rewrite H1. simpl. rewrite (strip_columns_text df1 Hc1). simpl.
  rewrite Hd1. simpl. rewrite H2. simpl. unfold strip_columns. rewrite Hc2.
  split; reflexivity.
Qed.

Section Claims.

Context (float_repr : Q -> string).
Context (load_model : Exn + Classifier).

Local Abbreviation str := (py_str float_repr).
Local Abbreviation text := (fun v : cell => CStr (py_str float_repr v)).

(** C7: every row whose [Details] is null is excluded from every later
    stage, and the result table has exactly one row per surviving input row,
    in the input's order.  The run on a table equals the run on that table
    without its null-[Details] rows; the table that lines 100-101 select from
    the frame of line 68 is well formed, has [len df] minus the number of
    null [Details] rows, and its [Details] and [Logic-level Issue] columns
    list the values of the surviving rows in input order.  On a table with
    one [bug_type] and one [Logical_Issue] column, whose result labels are
    not repeated and whose surviving rows have a [bug_type], the run goes
    through and ends with that table handed to [st.dataframe]. *)
Theorem C7_null_details_rows_excluded df d preds probs :
  well_formed df ->
  Pd.lookup_all "Details" df = [d] ->
  (length (Pd.lookup_all "Logical_Issue" df) <= 1)%nat ->
  classify load_model (map str (List.filter Pd.notnull d)) = inr (preds, probs) ->
  pred_length preds = length (List.filter Pd.notnull d) ->
  length probs = length (List.filter Pd.notnull d) ->
  process float_repr load_model (Pd.df_mask (map Pd.notnull d) df) =
    process float_repr load_model df /\
  exists F t,
    compose float_repr load_model df = inr F /\
    Pd.select table_cols F = inr t /\
    well_formed t /\
    len t = (len df - length (List.filter Pd.isnull d))%nat /\
    len t = length (List.filter Pd.notnull d) /\
    Pd.lookup_all "Details" t = [map text (List.filter Pd.notnull d)] /\
    (forall li, Pd.lookup_all "Logical_Issue" df = [li] ->
       Forall (eq (Pd.select_rows (map Pd.notnull d) li))
         (Pd.lookup_all "Logic-level Issue" t)) /\
    (forall bt li,
       Pd.lookup_all "bug_type" df = [bt] ->
       Pd.lookup_all "Logical_Issue" df = [li] ->
       result_labels_unique df = true ->
       pie_has_entry d bt = true ->
       columns t = table_cols /\
       process float_repr load_model df =
         (calls_before_table df
            (SeriesCounts (Pd.count_values Pd.cell_eqb Pd.isnull
                             (Pd.select_rows (map Pd.notnull d) bt)))
            (SeriesCounts (Pd.count_values Pd.cell_eqb Pd.isnull
               (Pd.select_rows (map (flagged float_repr) (Pd.select_rows (map Pd.notnull d) li))
                  (Pd.select_rows (map Pd.notnull d) bt))))
          ++ [st_dataframe t],
          inr tt)).
Proof.
  intros Hwf Hd HL Hcl Hp Hq.
  split; [by apply process_without_null_details|].
  destruct (compose_ok float_repr load_model df d preds probs Hwf Hd Hcl Hp Hq HL)
    as (ids & Hids & Hcomp & Hlen & Hwfi & Hbug & Hsame).
  fold (composed df d preds probs ids) in Hcomp.
  destruct (select_table (composed df d preds probs ids)
              (composed_has_table_cols float_repr df d preds probs Hd ids Hbug Hsame))
    as (t & Ht & Hlt & Hwt & Hlook).
  assert (Hlen' : len t = length (List.filter Pd.notnull d)).
  { by rewrite Hlt, len_composed. }
  exists (composed df d preds probs ids), t.
  split; [exact Hcomp|]. split; [exact Ht|].
  split; [by apply Hwt, (well_formed_composed float_repr load_model df d preds probs
                           Hwf Hd Hcl Hp Hq)|].
  split; [by rewrite Hlen', length_notnull_isnull, (length_d df d Hwf Hd)|].
  split; [exact Hlen'|]. split; [|split].
  - rewrite Hlook by decide_list.
    apply (lookup_composed_details float_repr df d preds probs Hd ids Hsame).
  - intros li Hli. rewrite Hlook by decide_list.
    destruct (lookup_composed_logic_level df d preds probs ids) as [_ H].
    unfold logic_level_values in H. by rewrite Hli in H.
  - intros bt li Hbt Hli Hu Hpie.
    destruct (process_shown float_repr load_model df d preds probs bt li
                Hwf Hd Hcl Hp Hq Hbt Hli Hu Hpie)
      as (ids' & t' & Hids' & Ht' & Hc & _ & _ & Hrun).
    rewrite Hids in Hids'. injection Hids' as <-.
    rewrite Ht in Ht'. injection Ht' as <-.
    split; [exact Hc | exact Hrun].
Qed.

(** C2: the pie aggregate counts the surviving rows by their raw [bug_type]
    (not by the predicted category), and the bar aggregate counts by
    [bug_type] the surviving rows whose [Logical_Issue] text is one of the
    eight spellings of "yes"; each aggregate lists every type once.  The
    table is one whose result labels are not repeated and whose surviving
    rows have a [bug_type], so that both charts and the table are shown.
    For the three-row table of the scenario the Bug IDs are 1, 2, 3, the pie
    aggregate is Server 2, UI 1 and the bar aggregate is Server 2. *)
Theorem C2_aggregates_by_raw_bug_type df rows preds probs :
  well_formed df ->
  Pd.lookup_all "Details" df = [map r_details rows] ->
  Pd.lookup_all "bug_type" df = [map r_bug_type rows] ->
  Pd.lookup_all "Logical_Issue" df = [map r_logical_issue rows] ->
  classify load_model (map str (map r_details (surviving rows))) = inr (preds, probs) ->
  pred_length preds = length (surviving rows) ->
  length probs = length (surviving rows) ->
  result_labels_unique df = true ->
  existsb Pd.notnull (map r_bug_type (surviving rows)) = true ->
  exists pie bar t,
    process float_repr load_model df =
      (calls_before_table df (SeriesCounts pie) (SeriesCounts bar) ++ [st_dataframe t], inr tt) /\
    pie <> [] /\ columns t = table_cols /\
    distinct_keys pie = true /\ distinct_keys bar = true /\
    (forall v, Pd.isnull v = false ->
       count_of v pie = rows_of_type v (surviving rows)) /\
    (forall v, Pd.isnull v = false ->
       count_of v bar =
       rows_of_type v (List.filter (fun r => says_yes float_repr (r_logical_issue r))
                         (surviving rows))) /\
    (df = Sample.three_rows ->
       Pd.lookup_all "Bug ID" t = [[CInt 1; CInt 2; CInt 3]] /\
       pie = [(CStr "Server", 2%nat); (CStr "UI", 1%nat)] /\
       bar = [(CStr "Server", 2%nat)]).
Proof.
  intros Hwf Hd Hbt Hli Hcl Hp Hq Hu Hpie.
  assert (Hn : length (surviving rows) =
               length (List.filter Pd.notnull (map r_details rows))).
  { by rewrite filter_notnull_details, length_map. }
  rewrite <- filter_notnull_details in Hcl. rewrite Hn in Hp, Hq.
  assert (Hbts : Pd.select_rows (map Pd.notnull (map r_details rows)) (map r_bug_type rows) =
                 map r_bug_type (surviving rows)).
  { rewrite map_map. apply select_rows_map. }
  assert (Hflag : Pd.select_rows (map Pd.notnull (map r_details rows)) (map r_logical_issue rows) =
                  map r_logical_issue (surviving rows)).
  { rewrite map_map. apply select_rows_map. }
  assert (Hpie' : pie_has_entry (map r_details rows) (map r_bug_type rows) = true).
  { unfold pie_has_entry. by rewrite Hbts. }
  destruct (process_shown float_repr load_model df _ preds probs _ _
              Hwf Hd Hcl Hp Hq Hbt Hli Hu Hpie')
    as (ids & t & Hids & Ht & Hc & _ & Hdraw & Hrun).
  destruct (select_table (composed df (map r_details rows) preds probs ids)) as (t' & Ht' & _ & _ & Hlook).
  { apply (composed_has_table_cols float_repr df _ preds probs Hd ids).
    - apply (derived_has_bug_id float_repr df _ ids Hids).
    - apply (derived_same float_repr df _ ids Hids). }
  rewrite Ht in Ht'. injection Ht' as <-.
  eexists _, _, t. split; [exact Hrun|].
  split.
  { intros E. rewrite E in Hdraw. discriminate. }
  split; [exact Hc|].
  split; [apply distinct_keys_count_values|].
  split; [apply distinct_keys_count_values|].
  split; [|split].
  - intros v Hv. rewrite (count_of_count_values _ _ Hv), Hbts. apply occurrences_map.
  - intros v Hv. rewrite (count_of_count_values _ _ Hv), Hbts, Hflag, map_map.
    rewrite select_rows_map.
    rewrite (List.filter_ext (fun r => flagged float_repr (r_logical_issue r))
               (fun r => says_yes float_repr (r_logical_issue r)))
      by (intros r; apply flagged_says_yes).
    apply occurrences_map.
  - intros ->.
    change (Pd.lookup_all "Details" Sample.three_rows)
      with [map r_details Sample.three_bug_rows] in Hd.
    change (Pd.lookup_all "bug_type" Sample.three_rows)
      with [map r_bug_type Sample.three_bug_rows] in Hbt.
    change (Pd.lookup_all "Logical_Issue" Sample.three_rows)
      with [map r_logical_issue Sample.three_bug_rows] in Hli.
    injection Hd as Hd. injection Hbt as Hbt. injection Hli as Hli.
    rewrite <- Hd, <- Hbt, <- Hli. rewrite <- Hd in Hids.
    split; [|split; reflexivity].
    rewrite Hlook by decide_list.
    unfold composed. rewrite !lookup_all_assign_ne by discriminate.
    vm_compute in Hids. injection Hids as <-. reflexivity.
Qed.

(** C4: on a loaded table with a [Details] column, an [S.No] column is
    renamed to [Bug ID]; otherwise, when there is no [Bug ID] column, the
    identifiers 1..N are synthesized in the order of the N rows that survive
    the null-[Details] filter (N may be 0); a table that has a [Bug ID]
    column and no [S.No] is left as it is, and deriving the identifier a
    second time changes nothing. *)
Theorem C4_bug_id_derivation df d :
  well_formed df ->
  Pd.lookup_all "Details" df = [d] ->
  drop_null_details float_repr df = inr (details_kept float_repr df d) /\
  len (details_kept float_repr df d) = length (List.filter Pd.notnull d) /\
  exists ids,
    derive_bug_id (details_kept float_repr df d) = inr ids /\
    len ids = length (List.filter Pd.notnull d) /\
    Pd.in_columns "Bug ID" ids = true /\
    (Pd.in_columns "S.No" df = true ->
       ids = Pd.rename "S.No" "Bug ID" (details_kept float_repr df d) /\
       Pd.in_columns "S.No" ids = false /\
       Pd.lookup_all "Bug ID" ids =
         map (Pd.select_rows (map Pd.notnull d)) (lookup_either "S.No" "Bug ID" df)) /\
    (Pd.in_columns "S.No" df = false -> Pd.in_columns "Bug ID" df = false ->
       cols ids = cols (details_kept float_repr df d) ++
                  [("Bug ID", map (fun i => CInt (Z.of_nat i))
                                (seq 1 (length (List.filter Pd.notnull d))))] /\
       Pd.lookup_all "Bug ID" ids =
         [map (fun i => CInt (Z.of_nat i)) (seq 1 (length (List.filter Pd.notnull d)))]) /\
    (Pd.in_columns "S.No" df = false -> Pd.in_columns "Bug ID" df = true ->
       ids = details_kept float_repr df d) /\
    derive_bug_id ids = inr ids.
Proof.
  intros Hwf Hd.
  split; [by apply drop_null_details_ok|].
  pose proof (len_details_kept float_repr df d) as Hlen.
  split; [exact Hlen|].
  destruct (derive_bug_id_spec (details_kept float_repr df d))
    as (ids & Hids & Hl & _ & Hbug & _).
  exists ids. split; [exact Hids|]. split; [by rewrite Hl|]. split; [exact Hbug|].
  pose proof (in_columns_details_kept float_repr df d Hd) as Hin.
  split; [intros Hs | split; [intros Hs Hb | split; [intros Hs Hb|]]].
  - unfold derive_bug_id in Hids. rewrite Hin, Hs in Hids. injection Hids as <-.
    split; [reflexivity|]. split; [apply in_columns_sno_renamed|].
    rewrite lookup_renamed. unfold details_kept.
    rewrite lookup_either_assign_ne by discriminate. apply lookup_either_df_mask.
  - unfold derive_bug_id, Pd.setitem, bug_id_range in Hids.
    rewrite !Hin, Hs, Hb, length_map, length_seq, Nat.eqb_refl in Hids. simpl in Hids.
    injection Hids as <-. split.
    + unfold Pd.assign. rewrite Hin, Hb. simpl. by rewrite Hlen.
    + rewrite lookup_all_assign_eq.
      assert (E : Pd.lookup_all "Bug ID" (details_kept float_repr df d) = []).
      { apply in_columns_false. by rewrite Hin. }
      by rewrite E, Hlen.
  - unfold derive_bug_id in Hids. rewrite !Hin, Hs, Hb in Hids. by injection Hids.
  - by apply derive_bug_id_twice in Hids.
Qed.

(** C5: in every row of the result table the confidence score is the largest
    class probability that [predict_proba] returned for that row, rounded to
    two decimals as numpy rounds a float64, and it lies between 0.00 and
    1.00.  The score is the float64 nearest to [n / 100] for a whole number
    [n] of hundredths between 0 and 100; [n] is within a half, and the
    float64 rounding of the product, of 100 times the probability, so it is
    the nearest whole number of hundredths unless the product falls within
    2^-46 of a tie; the score is within 2^-52 of [n / 100].  The
    probabilities are those of a classifier, each between 0 and 1.  The
    result table is the one lines 100-101 select from the frame of line 68;
    on a table with one [bug_type] and one [Logical_Issue] column, whose
    result labels are not repeated and whose surviving rows have a
    [bug_type], it is the table shown. *)
Theorem C5_confidence_score df d clf X preds pm :
  well_formed df ->
  Pd.lookup_all "Details" df = [d] ->
  (length (Pd.lookup_all "Logical_Issue" df) <= 1)%nat ->
  load_model = inr clf ->
  transform clf (map str (List.filter Pd.notnull d)) = inr X ->
  predict clf X = inr preds ->
  predict_proba clf X = inr pm ->
  pred_length preds = length (List.filter Pd.notnull d) ->
  length pm = length (List.filter Pd.notnull d) ->
  Forall (fun r => r <> [] /\ Forall (fun p => (0 <= p <= 1)%Q) r) pm ->
  exists F t,
    compose float_repr load_model df = inr F /\
    Pd.select table_cols F = inr t /\
    Pd.lookup_all "Confidence Score" t <> [] /\
    Forall (eq (map (fun r => CFloat (round2 (max_probability r))) pm))
      (Pd.lookup_all "Confidence Score" t) /\
    Forall (fun r =>
              In (max_probability r) r /\
              Forall (fun p => (p <= max_probability r)%Q) r /\
              (0 <= round2 (max_probability r) <= 1)%Q /\
              (max_probability r - (1 # 200) - (1 # 1000000000000000)
               <= round2 (max_probability r)
               <= max_probability r + (1 # 200) + (1 # 1000000000000000))%Q /\
              exists n : Z,
                (0 <= n <= 100)%Z /\
                round2 (max_probability r) = Float64.nearest (inject_Z n / 100) /\
                (max_probability r * 100 - (1 # 2) - (1 # 70368744177664) <= inject_Z n
                 <= max_probability r * 100 + (1 # 2) + (1 # 70368744177664))%Q /\
                (inject_Z n / 100 - (1 # 4503599627370496) <= round2 (max_probability r)
                 <= inject_Z n / 100 + (1 # 4503599627370496))%Q /\
                (forall m : Z,
                   (inject_Z m - (1 # 2) + (1 # 70368744177664) < max_probability r * 100
                    < inject_Z m + (1 # 2) - (1 # 70368744177664))%Q ->
                   n = m)) pm /\
    (forall bt li,
       Pd.lookup_all "bug_type" df = [bt] ->
       Pd.lookup_all "Logical_Issue" df = [li] ->
       result_labels_unique df = true ->
       pie_has_entry d bt = true ->
       shown_table (fst (process float_repr load_model df)) = Some t).
Proof.
  intros Hwf Hd HL Hload HX Hpred Hproba Hp Hq Hrows.
  assert (Hne : Forall (fun r => r <> []) pm).
  { eapply Forall_impl; [exact Hrows|]. by intros r [? _]. }
  pose proof (classify_ok load_model clf _ X preds pm Hload HX Hpred Hproba Hne) as Hcl.
  assert (Hq' : length (map max_probability pm) = length (List.filter Pd.notnull d)).
  { by rewrite length_map. }
  destruct (compose_ok float_repr load_model df d preds _ Hwf Hd Hcl Hp Hq' HL)
    as (ids & Hids & Hcomp & Hlen & Hwfi & Hbug & Hsame).
  fold (composed df d preds (map max_probability pm) ids) in Hcomp.
  destruct (select_table (composed df d preds (map max_probability pm) ids)
              (composed_has_table_cols float_repr df d preds _ Hd ids Hbug Hsame))
    as (t & Ht & Hlt & Hwt & Hlook).
  exists (composed df d preds (map max_probability pm) ids), t.
  split; [exact Hcomp|]. split; [exact Ht|].
  rewrite Hlook by decide_list.
  destruct (lookup_composed_confidence df d preds (map max_probability pm) ids) as [H1 H2].
  split; [exact H1|]. split; [|split].
  - unfold confidence_score in H2. by rewrite map_map in H2.
  - eapply Forall_impl; [exact Hrows|]. intros r [Hr Hunit]. simpl.
    destruct (max_probability_spec r Hr) as [Hin Hmax].
    split; [exact Hin|]. split; [exact Hmax|].
    assert (Hp01 : (0 <= max_probability r <= 1)%Q).
    { rewrite Forall_forall in Hunit. apply Hunit. by apply list_elem_of_In. }
    destruct (round2_probability _ Hp01) as (n & Hn & Hval & Hnear & Hulp & Hrange & Hall).
    split; [exact Hrange|]. split; [exact Hall|].
    exists n. split; [exact Hn|]. split; [exact Hval|]. split; [exact Hnear|].
    split; [exact Hulp|].
    intros m Hm. exact (nearest_whole _ n m _ Hnear Hm).
  - intros bt li Hbt Hli Hu Hpie.
    destruct (process_shown float_repr load_model df d preds _ bt li
                Hwf Hd Hcl Hp Hq' Hbt Hli Hu Hpie)
      as (ids' & t' & Hids' & Ht' & _ & _ & _ & Hrun).
    rewrite Hids in Hids'. injection Hids' as <-.
    rewrite Ht in Ht'. injection Ht' as <-.
    rewrite Hrun. reflexivity.
Qed.



(** C9: when the table has both an [S.No] and a [Bug ID] column, the rename
    of line 45 is applied all the same: the frame of line 47 is the renamed
    one, and the frame of line 68 and the table that lines 100-101 select
    from it carry two columns labelled [Bug ID], the former [S.No] values
    and the original [Bug ID] values of the surviving rows, in the order of
    the two columns in the input.  That table has a repeated label. *)
Theorem C9_duplicate_bug_id df d sno bid preds probs :
  well_formed df ->
  Pd.lookup_all "Details" df = [d] ->
  (length (Pd.lookup_all "Logical_Issue" df) <= 1)%nat ->
  Pd.lookup_all "S.No" df = [sno] ->
  Pd.lookup_all "Bug ID" df = [bid] ->
  classify load_model (map str (List.filter Pd.notnull d)) = inr (preds, probs) ->
  pred_length preds = length (List.filter Pd.notnull d) ->
  length probs = length (List.filter Pd.notnull d) ->
  exists F t,
    derive_bug_id (details_kept float_repr df d) =
      inr (Pd.rename "S.No" "Bug ID" (details_kept float_repr df d)) /\
    compose float_repr load_model df = inr F /\
    Pd.select table_cols F = inr t /\
    label_count "Bug ID" F = 2%nat /\
    label_count "Bug ID" t = 2%nat /\
    Pd.lookup_all "Bug ID" t = Pd.lookup_all "Bug ID" F /\
    (Pd.lookup_all "Bug ID" t =
       [Pd.select_rows (map Pd.notnull d) sno; Pd.select_rows (map Pd.notnull d) bid] \/
     Pd.lookup_all "Bug ID" t =
       [Pd.select_rows (map Pd.notnull d) bid; Pd.select_rows (map Pd.notnull d) sno]) /\
    displayable t = false.
Proof.
  intros Hwf Hd HL Hsno Hbid Hcl Hp Hq.
  destruct (compose_ok float_repr load_model df d preds probs Hwf Hd Hcl Hp Hq HL)
    as (ids & Hids & Hcomp & Hlen & Hwfi & Hbug & Hsame).
  fold (composed df d preds probs ids) in Hcomp.
  destruct (select_table (composed df d preds probs ids)
              (composed_has_table_cols float_repr df d preds probs Hd ids Hbug Hsame))
    as (t & Ht & Hlt & Hwt & Hlook).
  exists (composed df d preds probs ids), t.
  assert (Hren : ids = Pd.rename "S.No" "Bug ID" (details_kept float_repr df d)).
  { pose proof Hids as H. unfold derive_bug_id in H.
    rewrite (in_columns_details_kept float_repr df d Hd), (in_columns_unique _ _ _ Hsno) in H.
    by injection H. }
  split; [by rewrite <- Hren|]. split; [exact Hcomp|]. split; [exact Ht|].
  assert (HF : Pd.lookup_all "Bug ID" (composed df d preds probs ids) =
               Pd.lookup_all "Bug ID" ids).
  { unfold composed. by rewrite !lookup_all_assign_ne by discriminate. }
  assert (Hboth := lookup_bug_id_both float_repr df d Hd ids Hids sno bid Hsno Hbid).
  assert (Htl : Pd.lookup_all "Bug ID" t = Pd.lookup_all "Bug ID" ids).
  { rewrite Hlook by decide_list. exact HF. }
  assert (Hct : label_count "Bug ID" t = 2%nat).
  { rewrite label_count_lookup_all, Htl. by destruct Hboth as [E|E]; rewrite E. }
  split; [|split; [exact Hct|split; [|split]]].
  - rewrite label_count_lookup_all, HF. by destruct Hboth as [E|E]; rewrite E.
  - by rewrite Htl, HF.
  - by rewrite Htl.
  - apply (repeated_label_not_displayable "Bug ID"). rewrite Hct. lia.
Qed.

(** C10: on a table with a [bug_type] column and no [Logical_Issue] column,
    whose surviving rows have a [bug_type], the pie chart is drawn before
    line 94 raises: the calls made are the column list, the pie chart with
    its heading and the heading of the bar chart, then the handler's
    message; neither the bar chart nor the table is shown.  The aggregate
    handed to the pie has an entry. *)
Theorem C10_pie_before_error f df d bt preds probs :
  load f = inr df ->
  well_formed df ->
  Pd.lookup_all "Details" df = [d] ->
  Pd.lookup_all "bug_type" df = [bt] ->
  Pd.in_columns "Logical_Issue" df = false ->
  pie_has_entry d bt = true ->
  classify load_model (map str (List.filter Pd.notnull d)) = inr (preds, probs) ->
  pred_length preds = length (List.filter Pd.notnull d) ->
  length probs = length (List.filter Pd.notnull d) ->
  app float_repr load_model (Some f) =
    [ st_write "📋 Columns found in your file:" (columns df);
      st_markdown "### 🥧 Pie Chart – Bug Origin by Type";
      st_pyplot_pie (SeriesCounts (Pd.count_values Pd.cell_eqb Pd.isnull
                                     (Pd.select_rows (map Pd.notnull d) bt)));
      st_markdown "### 📊 Bar Chart – Logic-Level Bugs by Category";
      st_error "❌ Error: 'Logical_Issue'" ] /\
  drawable (SeriesCounts (Pd.count_values Pd.cell_eqb Pd.isnull
                            (Pd.select_rows (map Pd.notnull d) bt))) = true /\
  List.filter is_table (app float_repr load_model (Some f)) = [] /\
  List.filter is_chart (app float_repr load_model (Some f)) =
    [ st_pyplot_pie (SeriesCounts (Pd.count_values Pd.cell_eqb Pd.isnull
                                     (Pd.select_rows (map Pd.notnull d) bt))) ].
Proof.
  intros Hload Hwf Hd Hbt Habs Hpie Hcl Hp Hq.
  assert (HL : (length (Pd.lookup_all "Logical_Issue" df) <= 1)%nat).
  { apply in_columns_false in Habs. rewrite Habs. simpl. lia. }
  destruct (compose_ok float_repr load_model df d preds probs Hwf Hd Hcl Hp Hq HL)
    as (ids & Hids & Hcomp & Hlen & Hwfi & Hbug & Hsame).
  fold (composed df d preds probs ids) in Hcomp.
  assert (Hrun : app float_repr load_model (Some f) =
    [ st_write "📋 Columns found in your file:" (columns df);
      st_markdown "### 🥧 Pie Chart – Bug Origin by Type";
      st_pyplot_pie (SeriesCounts (Pd.count_values Pd.cell_eqb Pd.isnull
                                     (Pd.select_rows (map Pd.notnull d) bt)));
      st_markdown "### 📊 Bar Chart – Logic-Level Bugs by Category";
      st_error "❌ Error: 'Logical_Issue'" ]).
  { unfold app, body. rewrite Hload, bind_lift_inr.
    unfold process. rewrite bind_emit, (in_columns_unique _ _ _ Hd). simpl negb. cbv iota.
    rewrite Hcomp, bind_lift_inr.
    rewrite (pie_chart_ok float_repr df d preds probs ids Hsame bt Hbt), bind_value.
    unfold bar_chart. rewrite bind_emit.
    assert (HF : Pd.in_columns "Logical_Issue" (composed df d preds probs ids) = false).
    { apply in_columns_false.
      rewrite (lookup_composed_input float_repr df d preds probs ids Hsame) by decide_list.
      apply in_columns_false in Habs. by rewrite Habs. }
    rewrite (getitem_absent _ _ HF), bind_lift_inl. simpl. reflexivity. }
  rewrite Hrun. split; [reflexivity|].
  split; [by rewrite drawable_count_values|]. split; reflexivity.
Qed.

(** C3: a table that has a [Details] column but lacks [bug_type] or lacks
    [Logical_Issue] makes the run raise; the exception is caught by the
    handler of line 103 and shown as the one message "❌ Error: " followed by
    the exception's text, after the calls already made, with no table, and
    the script returns.  Once lines 40-68 have gone through, the message is
    "❌ Error: 'bug_type'" under the heading of the pie chart when
    [bug_type] is missing, and "❌ Error: 'Logical_Issue'" under the heading
    of the bar chart when only [Logical_Issue] is (on a table whose pie
    aggregate has an entry).  Whatever the upload, an exception raised in
    the body of the [try] ends the run in that way, with no other error
    message and no second attempt. *)
Theorem C3_missing_aggregate_column_surfaces f df :
  load f = inr df ->
  Pd.in_columns "Details" df = true ->
  Pd.in_columns "bug_type" df = false \/ Pd.in_columns "Logical_Issue" df = false ->
  (exists out e,
     body float_repr load_model f = (out, inl e) /\
     app float_repr load_model (Some f) = out ++ [st_error ("❌ Error: " +:+ exn_str e)] /\
     List.filter is_error out = [] /\ List.filter is_table out = []) /\
  (forall F,
     compose float_repr load_model df = inr F ->
     Pd.in_columns "bug_type" df = false ->
     app float_repr load_model (Some f) =
       [ st_write "📋 Columns found in your file:" (columns df);
         st_markdown "### 🥧 Pie Chart – Bug Origin by Type";
         st_error "❌ Error: 'bug_type'" ]) /\
  (forall F bt,
     compose float_repr load_model df = inr F ->
     Pd.lookup_all "bug_type" F = [bt] ->
     existsb Pd.notnull bt = true ->
     Pd.in_columns "Logical_Issue" df = false ->
     app float_repr load_model (Some f) =
       [ st_write "📋 Columns found in your file:" (columns df);
         st_markdown "### 🥧 Pie Chart – Bug Origin by Type";
         st_pyplot_pie (SeriesCounts (Pd.count_values Pd.cell_eqb Pd.isnull bt));
         st_markdown "### 📊 Bar Chart – Logic-Level Bugs by Category";
         st_error "❌ Error: 'Logical_Issue'" ]) /\
  (forall g out e,
     body float_repr load_model g = (out, inl e) ->
     app float_repr load_model (Some g) = out ++ [st_error ("❌ Error: " +:+ exn_str e)] /\
     List.filter is_error out = [] /\ List.filter is_table out = []).
Proof.
  intros Hload Hd Hmiss.
  assert (Hany : forall g out e,
     body float_repr load_model g = (out, inl e) ->
     app float_repr load_model (Some g) = out ++ [st_error ("❌ Error: " +:+ exn_str e)] /\
     List.filter is_error out = [] /\ List.filter is_table out = []).
  { intros g out e Hg. split; [unfold app; by rewrite Hg|].
    unfold body in Hg. destruct (load g) as [e'|dg].
    - rewrite bind_lift_inl in Hg. injection Hg as <- <-. by split.
    - rewrite bind_lift_inr in Hg. by apply process_raised in Hg. }
  split; [|split; [|split; [|exact Hany]]].
  - destruct (process_missing_aggregate_column float_repr load_model df Hd Hmiss)
      as (out & e & Hrun).
    exists out, e.
    assert (Hbody : body float_repr load_model f = (out, inl e)).
    { unfold body. by rewrite Hload, bind_lift_inr. }
    split; [exact Hbody|]. by apply Hany.
  - intros F HF Hb. unfold app, body. rewrite Hload, bind_lift_inr.
    by rewrite (process_without_bug_type float_repr load_model df F Hd HF Hb).
  - intros F bt HF Hbt Hpie Habs. unfold app, body. rewrite Hload, bind_lift_inr.
    unfold process. rewrite bind_emit, Hd. simpl negb. cbv iota.
    rewrite HF, bind_lift_inr. unfold pie_chart.
    rewrite bind_emit, (getitem_unique _ _ _ Hbt), bind_lift_inr. simpl Pd.value_counts.
    rewrite bind_lift_inr. unfold bar_chart.
    rewrite <- (compose_in_columns float_repr load_model df F _ HF) in Habs by decide_list.
    rewrite (getitem_absent _ _ Habs). reflexivity.
Qed.

End Claims.

(** * The claims at the sample tables *)

Lemma well_formed_five_rows : well_formed Sample.five_rows.
Proof. unfold well_formed. simpl. repeat constructor. Qed.

Lemma well_formed_three_rows : well_formed Sample.three_rows.
Proof. unfold well_formed. simpl. repeat constructor. Qed.

Lemma well_formed_no_logical_issue : well_formed Sample.no_logical_issue.
Proof. unfold well_formed. simpl. repeat constructor. Qed.

Lemma well_formed_with_ids : well_formed Sample2.with_ids.
Proof. unfold well_formed. simpl. repeat constructor. Qed.

Lemma C7_witness :
  Pd.lookup_all "Details" Sample2.with_ids = [Sample2.ids_details] /\
  classify (inr Sample.toy)
    (map (py_str Sample.toy_repr) (List.filter Pd.notnull Sample2.ids_details)) =
    inr (Sample2.ids_codes, Sample2.ids_probs) /\
  result_labels_unique Sample2.with_ids = true /\
  pie_has_entry Sample2.ids_details Sample2.ids_bug_type = true /\
  exists t,
    len t = 3%nat /\
    Pd.lookup_all "Details" t =
      [[CStr "crash on login"; CStr "label cut off"; CStr "timeout"]] /\
    process Sample.toy_repr (inr Sample.toy) Sample2.with_ids =
      (calls_before_table Sample2.with_ids
         (SeriesCounts [(CStr "Server", 2%nat); (CStr "UI", 1%nat)])
         (SeriesCounts [(CStr "Server", 2%nat)]) ++ [st_dataframe t], inr tt).
Proof.
  split; [reflexivity|]. split; [reflexivity|]. split; [reflexivity|]. split; [reflexivity|].
  destruct (C7_null_details_rows_excluded Sample.toy_repr (inr Sample.toy) Sample2.with_ids
              Sample2.ids_details Sample2.ids_codes Sample2.ids_probs)
    as (_ & F & t & _ & _ & _ & _ & Hlen & Hdet & _ & Hshown);
    [exact well_formed_with_ids | reflexivity | simpl; lia | reflexivity
    | reflexivity | reflexivity |].
  destruct (Hshown Sample2.ids_bug_type Sample2.ids_logical_issue
              eq_refl eq_refl eq_refl eq_refl) as [_ Hrun].
  exists t. split; [exact Hlen|]. split; [exact Hdet | exact Hrun].
Defined.

Lemma C2_witness :
  (Pd.lookup_all "Details" Sample2.with_ids = [map r_details Sample2.ids_bug_rows] /\
   Pd.lookup_all "bug_type" Sample2.with_ids = [map r_bug_type Sample2.ids_bug_rows] /\
   Pd.lookup_all "Logical_Issue" Sample2.with_ids =
     [map r_logical_issue Sample2.ids_bug_rows] /\
   exists pie bar t,
     process Sample.toy_repr (inr Sample.toy) Sample2.with_ids =
       (calls_before_table Sample2.with_ids (SeriesCounts pie) (SeriesCounts bar)
          ++ [st_dataframe t], inr tt) /\
     count_of (CStr "Server") pie = 2%nat /\ count_of (CStr "UI") pie = 1%nat /\
     count_of (CStr "Server") bar = 2%nat /\ count_of (CStr "UI") bar = 0%nat) /\
  (Pd.lookup_all "Details" Sample.three_rows = [map r_details Sample.three_bug_rows] /\
   exists t,
     process Sample.toy_repr (inr Sample.toy) Sample.three_rows =
       (calls_before_table Sample.three_rows
          (SeriesCounts [(CStr "Server", 2%nat); (CStr "UI", 1%nat)])
          (SeriesCounts [(CStr "Server", 2%nat)]) ++ [st_dataframe t], inr tt) /\
     Pd.lookup_all "Bug ID" t = [[CInt 1; CInt 2; CInt 3]]).
Proof.
  split.
  - split; [reflexivity|]. split; [reflexivity|]. split; [reflexivity|].
    destruct (C2_aggregates_by_raw_bug_type Sample.toy_repr (inr Sample.toy) Sample2.with_ids
                Sample2.ids_bug_rows Sample2.ids_codes Sample2.ids_probs)
      as (pie & bar & t & Hrun & _ & _ & _ & _ & Hpie & Hbar & _);
      [exact well_formed_with_ids | reflexivity | reflexivity | reflexivity | reflexivity
      | reflexivity | reflexivity | reflexivity | reflexivity |].
    exists pie, bar, t. split; [exact Hrun|].
    split; [exact (Hpie (CStr "Server") eq_refl)|].
    split; [exact (Hpie (CStr "UI") eq_refl)|].
    split; [exact (Hbar (CStr "Server") eq_refl) | exact (Hbar (CStr "UI") eq_refl)].
  - split; [reflexivity|].
    destruct (C2_aggregates_by_raw_bug_type Sample.toy_repr (inr Sample.toy) Sample.three_rows
                Sample.three_bug_rows Sample.three_codes Sample.three_probs)
      as (pie & bar & t & Hrun & _ & _ & _ & _ & _ & _ & Hscenario);
      [exact well_formed_three_rows | reflexivity | reflexivity | reflexivity | reflexivity
      | reflexivity | reflexivity | reflexivity | reflexivity |].
    destruct (Hscenario eq_refl) as (Hids & Hpie & Hbar).
    exists t. rewrite Hpie, Hbar in Hrun. split; [exact Hrun | exact Hids].
Defined.

Lemma C4_witness :
  Pd.lookup_all "Details" Sample.three_rows = [Sample.three_details] /\
  exists ids,
    derive_bug_id (details_kept Sample.toy_repr Sample.three_rows Sample.three_details) = inr ids /\
    Pd.lookup_all "Bug ID" ids = [[CInt 1; CInt 2; CInt 3]] /\
    derive_bug_id ids = inr ids.
Proof.
  split; [reflexivity|].
  destruct (C4_bug_id_derivation Sample.toy_repr Sample.three_rows Sample.three_details)
    as (_ & _ & ids & Hids & _ & _ & _ & Hnew & _ & Htwice);
    [exact well_formed_three_rows | reflexivity |].
  exists ids. split; [exact Hids|]. split; [|exact Htwice].
  destruct (Hnew eq_refl eq_refl) as [_ H]. exact H.
Defined.

Lemma C5_witness :
  predict_proba Sample2.toy64 ["crash on login"; "label cut off"; "timeout"] =
    inr Sample2.ids_matrix64 /\
  exists F t,
    compose Sample.toy_repr (inr Sample2.toy64) Sample2.with_ids = inr F /\
    Pd.select table_cols F = inr t /\
    Forall (eq [CFloat Sample2.f_0_82; CFloat (1 # 2); CFloat Sample2.f_0_82])
      (Pd.lookup_all "Confidence Score" t) /\
    Pd.lookup_all "Confidence Score" t <> [] /\
    shown_table (fst (process Sample.toy_repr (inr Sample2.toy64) Sample2.with_ids)) = Some t.
Proof.
  split; [reflexivity|].
  destruct (C5_confidence_score Sample.toy_repr (inr Sample2.toy64) Sample2.with_ids
              Sample2.ids_details
              Sample2.toy64 ["crash on login"; "label cut off"; "timeout"]
              Sample2.ids_codes Sample2.ids_matrix64)
    as (F & t & HF & Ht & Hne & Hconf & _ & Hshown);
    [exact well_formed_with_ids | reflexivity | simpl; lia | reflexivity
    | reflexivity | reflexivity | reflexivity | reflexivity | reflexivity | |].
  - unfold Sample2.ids_matrix64.
    repeat (constructor; [split; [discriminate|
      repeat (constructor; [split; discriminate|]); constructor]|]). constructor.
  - exists F, t. split; [exact HF|]. split; [exact Ht|].
    split; [exact Hconf|]. split; [exact Hne|].
    exact (Hshown Sample2.ids_bug_type Sample2.ids_logical_issue
             eq_refl eq_refl eq_refl eq_refl).
Defined.



Lemma C9_witness :
  Pd.lookup_all "S.No" Sample.five_rows = [[CInt 11; CInt 12; CInt 13; CInt 14; CInt 15]] /\
  Pd.lookup_all "Bug ID" Sample.five_rows =
    [[CStr "B-1"; CStr "B-2"; CStr "B-3"; CStr "B-4"; CStr "B-5"]] /\
  exists F t,
    compose Sample.toy_repr (inr Sample.toy) Sample.five_rows = inr F /\
    Pd.select table_cols F = inr t /\
    label_count "Bug ID" t = 2%nat /\
    Pd.lookup_all "Bug ID" t =
      [[CInt 11; CInt 13; CInt 14; CInt 15]; [CStr "B-1"; CStr "B-3"; CStr "B-4"; CStr "B-5"]] /\
    displayable t = false.
Proof.
  split; [reflexivity|]. split; [reflexivity|].
  destruct (C9_duplicate_bug_id Sample.toy_repr (inr Sample.toy) Sample.five_rows
              Sample.five_details
              [CInt 11; CInt 12; CInt 13; CInt 14; CInt 15]
              [CStr "B-1"; CStr "B-2"; CStr "B-3"; CStr "B-4"; CStr "B-5"]
              Sample.four_codes Sample.four_probs)
    as (F & t & _ & HF & Ht & _ & Hcount & _ & Hboth & Hdisp);
    [exact well_formed_five_rows | reflexivity | simpl; lia | reflexivity | reflexivity
    | reflexivity | reflexivity | reflexivity |].
  exists F, t. split; [exact HF|]. split; [exact Ht|]. split; [exact Hcount|].
  split; [|exact Hdisp].
  destruct Hboth as [H|H]; [exact H|].
  vm_compute in HF. injection HF as <-.
  vm_compute in Ht. injection Ht as <-. vm_compute in H. discriminate H.
Defined.

Lemma C10_witness :
  load (Sample.csv_of Sample.no_logical_issue) = inr Sample.no_logical_issue /\
  Pd.in_columns "Logical_Issue" Sample.no_logical_issue = false /\
  pie_has_entry Sample.three_details [CStr "Server"; CStr "UI"; CStr "Server"] = true /\
  app Sample.toy_repr (inr Sample.toy) (Some (Sample.csv_of Sample.no_logical_issue)) =
    [ st_write "📋 Columns found in your file:" ["Details"; "bug_type"];
      st_markdown "### 🥧 Pie Chart – Bug Origin by Type";
      st_pyplot_pie (SeriesCounts [(CStr "Server", 2%nat); (CStr "UI", 1%nat)]);
      st_markdown "### 📊 Bar Chart – Logic-Level Bugs by Category";
      st_error "❌ Error: 'Logical_Issue'" ].
Proof.
  split; [reflexivity|]. split; [reflexivity|]. split; [reflexivity|].
  destruct (C10_pie_before_error Sample.toy_repr (inr Sample.toy)
              (Sample.csv_of Sample.no_logical_issue) Sample.no_logical_issue
              Sample.three_details [CStr "Server"; CStr "UI"; CStr "Server"]
              Sample.three_codes Sample.three_probs)
    as (Hrun & _);
    [reflexivity | exact well_formed_no_logical_issue | reflexivity | reflexivity | reflexivity
    | reflexivity | reflexivity | reflexivity | reflexivity |].
  exact Hrun.
Defined.

Lemma C3_witness :
  (load (Sample.csv_of Sample2.no_bug_type) = inr Sample2.no_bug_type /\
   Pd.in_columns "Details" Sample2.no_bug_type = true /\
   Pd.in_columns "bug_type" Sample2.no_bug_type = false /\
   app Sample.toy_repr (inr Sample.toy) (Some (Sample.csv_of Sample2.no_bug_type)) =
     [ st_write "📋 Columns found in your file:" ["Details"; "Logical_Issue"];
       st_markdown "### 🥧 Pie Chart – Bug Origin by Type";
       st_error "❌ Error: 'bug_type'" ]) /\
  (load (Sample.csv_of Sample.no_logical_issue) = inr Sample.no_logical_issue /\
   Pd.in_columns "Logical_Issue" Sample.no_logical_issue = false /\
   exists out e,
     body Sample.toy_repr (inr Sample.toy) (Sample.csv_of Sample.no_logical_issue) = (out, inl e) /\
     app Sample.toy_repr (inr Sample.toy) (Some (Sample.csv_of Sample.no_logical_issue)) =
       out ++ [st_error ("❌ Error: " +:+ exn_str e)] /\
     app Sample.toy_repr (inr Sample.toy) (Some (Sample.csv_of Sample.no_logical_issue)) =
       [ st_write "📋 Columns found in your file:" ["Details"; "bug_type"];
         st_markdown "### 🥧 Pie Chart – Bug Origin by Type";
         st_pyplot_pie (SeriesCounts [(CStr "Server", 2%nat); (CStr "UI", 1%nat)]);
         st_markdown "### 📊 Bar Chart – Logic-Level Bugs by Category";
         st_error "❌ Error: 'Logical_Issue'" ]).
Proof.
  split.
  - split; [reflexivity|]. split; [reflexivity|]. split; [reflexivity|].
    destruct (C3_missing_aggregate_column_surfaces Sample.toy_repr (inr Sample.toy)
                (Sample.csv_of Sample2.no_bug_type) Sample2.no_bug_type)
      as (_ & Hbt & _);
      [reflexivity | reflexivity | left; reflexivity |].
    eapply Hbt; reflexivity.
  - split; [reflexivity|]. split; [reflexivity|].
    destruct (C3_missing_aggregate_column_surfaces Sample.toy_repr (inr Sample.toy)
                (Sample.csv_of Sample.no_logical_issue) Sample.no_logical_issue)
      as ((out & e & Hbody & Happ & _) & _ & Hli & _);
      [reflexivity | reflexivity | right; reflexivity |].
    exists out, e. split; [exact Hbody|]. split; [exact Happ|].
    eapply (Hli _ [CStr "Server"; CStr "UI"; CStr "Server"]); reflexivity.
Defined.
